(** * Focus guard: search pipeline and focus timer

    A shallow embedding of the two pieces of logic of the application:

    - [handleSearch] of [src/components/SearchMock.tsx] (the search
      orchestrator with its inline content filter) together with
      [validateAndSearch] of the Gemini service (the oracle client);
    - [startTimer] and the ticking effect of the [Timer] component.

    JavaScript strings are modelled as [string].  The two functions of
    the platform whose result depends on the Unicode tables,
    [String.prototype.toLowerCase] and [String.prototype.trim], are left
    open: the search component and the chat widget take them as
    parameters, so what is proved of them holds for the functions of any
    JavaScript engine.  Module [JsString] gives their restriction to
    ASCII text ([toLowerCase] maps the letters A-Z, [trim] strips TAB,
    LF, VT, FF, CR and SPACE), which is what the runs on concrete inputs
    use; the sign-up form, whose addresses come from an e-mail input,
    uses it too.

    Numbers that the code keeps integral are modelled as [Z].  The
    numbers of the source are doubles: [Z] agrees with them for integers
    up to 2^53 = 9007199254740992 in absolute value, and statements
    about arithmetic on numbers the user can make larger carry that
    bound.

    The oracle answers with whatever [JSON.parse] makes of its text:
    [null], or an object whose fields hold any JSON value or are
    missing.  A search is followed from the click to the end of its
    [finally] block, with the answer of the oracle given from outside. *)

From Stdlib Require Import String Ascii List Bool ZArith Lia.
From Stdlib Require Import Decimal DecimalString DecimalZ.
Import ListNotations.
Local Open Scope string_scope.

(* ================================================================== *)
(** ** JavaScript string primitives used by the source, on ASCII text *)
(* ================================================================== *)

Module JsString.

(** [c] lowercased, as [String.prototype.toLowerCase] does on ASCII: the
    letters A-Z only.  Letters outside ASCII that JavaScript lowers into
    ASCII (U+212A to k) are not covered here. *)
Definition lower_ascii (c : ascii) : ascii :=
  let n := nat_of_ascii c in
  if (65 <=? n)%nat && (n <=? 90)%nat then ascii_of_nat (n + 32) else c.

Fixpoint toLowerCase (s : string) : string :=
  match s with
  | EmptyString => EmptyString
  | String c r => String (lower_ascii c) (toLowerCase r)
  end.

(** [s.startsWith(p)] *)
Definition startsWith (s p : string) : bool := String.prefix p s.

(** [s.includes(sub)]: [sub] starts at some position of [s]. *)
Fixpoint includes (s sub : string) : bool :=
  startsWith s sub ||
  match s with
  | EmptyString => false
  | String _ r => includes r sub
  end.

(** [s.endsWith(suf)]: some suffix of [s] is [suf]. *)
Fixpoint endsWith (s suf : string) : bool :=
  String.eqb s suf ||
  match s with
  | EmptyString => false
  | String _ r => endsWith r suf
  end.

(** The ASCII white space stripped by [trim]: TAB, LF, VT, FF, CR and
    SPACE.  The white space of JavaScript outside ASCII (U+00A0, U+FEFF,
    U+2028 and others) is not covered here. *)
Definition is_white_space (c : ascii) : bool :=
  let n := nat_of_ascii c in
  ((9 <=? n)%nat && (n <=? 13)%nat) || (n =? 32)%nat.

Fixpoint trimStart (s : string) : string :=
  match s with
  | EmptyString => EmptyString
  | String c r => if is_white_space c then trimStart r else s
  end.

Fixpoint trimEnd (s : string) : string :=
  match s with
  | EmptyString => EmptyString
  | String c r =>
      let r' := trimEnd r in
      if is_white_space c && String.eqb r' EmptyString
      then EmptyString
      else String c r'
  end.

(** [s.trim()] *)
Definition trim (s : string) : string := trimEnd (trimStart s).

(** Truthiness of a string value: only the empty string is falsy. *)
Definition truthy (s : string) : bool := negb (String.eqb s EmptyString).

(** [Array.prototype.some] *)
Definition some {A : Type} (p : A -> bool) (l : list A) : bool := existsb p l.

End JsString.

Import JsString.

(* ================================================================== *)
(** ** Data model *)
(* ================================================================== *)

(** Modelled from the spec: the enum [UserRole] is declared in [types.ts],
    which is absent from src/; the spec lists its four values and
    [ProfileSetup.tsx] uses all of them. *)
Inductive UserRole : Type := UNSET | RESEARCHER | STUDENT | TEACHER.

(** [a === b] on enum values. *)
Definition UserRole_eqb (a b : UserRole) : bool :=
  match a, b with
  | UNSET, UNSET | RESEARCHER, RESEARCHER
  | STUDENT, STUDENT | TEACHER, TEACHER => true
  | _, _ => false
  end.

(** A value as [JSON.parse] can leave it in a field, or [undefined] for a
    field that is not there.  A number is kept as its literal; arrays and
    objects are kept as [JObject], their contents aside. *)
Inductive JsValue : Type :=
| JUndefined
| JNull
| JBool (b : bool)
| JNumber (literal : string)
| JString (s : string)
| JObject.

(** The digits of a number literal before its exponent are all zero:
    the literal denotes 0 or -0. *)
Fixpoint zero_literal (literal : string) : bool :=
  match literal with
  | EmptyString => true
  | String c r =>
      if Ascii.eqb c "e" || Ascii.eqb c "E" then true
      else if Ascii.eqb c "1" || Ascii.eqb c "2" || Ascii.eqb c "3"
              || Ascii.eqb c "4" || Ascii.eqb c "5" || Ascii.eqb c "6"
              || Ascii.eqb c "7" || Ascii.eqb c "8" || Ascii.eqb c "9"
      then false
      else zero_literal r
  end.

(** Truthiness of a value: [undefined], [null], [false], zero and the
    empty string are falsy. *)
Definition truthy_value (v : JsValue) : bool :=
  match v with
  | JUndefined | JNull => false
  | JBool b => b
  | JNumber literal => negb (zero_literal literal)
  | JString s => truthy s
  | JObject => true
  end.

(** One element of [suggestedLinks] as [JSON.parse] hands it over: nothing
    checks the reply against the schema, so every field may be absent.
    [url] is [None] also when it is there without being a string, and for
    an element that is no object: [link.url.toLowerCase()] throws in each
    of these cases. *)
Record RawLink : Type := mkRawLink {
  title : option string;
  url : option string;
  snippet : option string;
  thumbnailUrl : option string
}.

(** The value [validateAndSearch] resolves to when it is not [null], read
    through the three fields [handleSearch] looks at.  [suggestedLinks]
    is [None] when the field is absent or no array, where [.map] throws;
    a reply that is a number, a string or a boolean has none of the
    fields. *)
Record ValidationResponse : Type := mkValidationResponse {
  isValid : JsValue;
  reason : JsValue;
  suggestedLinks : option (list RawLink)
}.

(** [{ ...link, isTrusted, isBlocked, blockReason }] *)
Record SearchResult : Type := mkSearchResult {
  link : RawLink;
  isTrusted : bool;
  isBlocked : bool;
  blockReason : string
}.

(** What the awaited oracle exchange does: the promise rejects (network
    failure, or a reply text that [JSON.parse] refuses), or it resolves to
    [null], or to another parsed value. *)
Inductive OracleReply : Type :=
| Rejects
| ResolvesNull
| Resolves (r : ValidationResponse).

(** Calls that leave the component, in the order they are made. *)
Inductive Effect : Type :=
| OracleCall (query : string) (role : UserRole)
| AddHistory (query : string).

(** The state [handleSearch] reads and writes: the component's own
    [useState] cells, the [history] prop owned by the parent, and the log
    of outgoing calls.  [error] holds whatever [setError] was given. *)
Record World : Type := mkWorld {
  query : string;
  loading : bool;
  allResults : list SearchResult;
  visibleCount : Z;
  error : JsValue;
  showHistoryView : bool;
  history : list string;
  trace : list Effect
}.

Inductive JsError : Type := TypeError | OracleFailure.

(** How a piece of code completes. *)
Inductive Completion (A : Type) : Type :=
| Normal (a : A)
| Throw (e : JsError).
Arguments Normal {A} a.
Arguments Throw {A} e.

(* ================================================================== *)
(** ** A state monad whose exceptions keep the state written so far *)
(* ================================================================== *)

Definition M (A : Type) : Type := World -> Completion A * World.

Definition ret {A : Type} (a : A) : M A := fun w => (Normal a, w).

Definition bind {A B : Type} (c : M A) (k : A -> M B) : M B :=
  fun w =>
    match c w with
    | (Normal a, w') => k a w'
    | (Throw e, w') => (Throw e, w')
    end.

Definition throw {A : Type} (e : JsError) : M A := fun w => (Throw e, w).

(** Lifts a pure computation that may throw. *)
Definition lift {A : Type} (c : Completion A) : M A := fun w => (c, w).

(** [try { body } catch (err) { handler } finally { fin }] *)
Definition tryCatchFinally {A : Type}
  (body : M A) (handler : JsError -> M A) (fin : M unit) : M A :=
  fun w =>
    let '(r, w1) :=
      match body w with
      | (Normal a, w') => (Normal a, w')
      | (Throw e, w') => handler e w'
      end in
    match fin w1 with
    | (Normal _, w2) => (r, w2)
    | (Throw e, w2) => (Throw e, w2)
    end.

Declare Scope js_scope.
Delimit Scope js_scope with js.
Notation "x <- c ;; k" := (bind c (fun x => k))
  (at level 61, c at next level, right associativity) : js_scope.
Notation "c ;; k" := (bind c (fun _ => k))
  (at level 61, right associativity) : js_scope.

Definition gets {A : Type} (f : World -> A) : M A := fun w => (Normal (f w), w).
Definition modify (f : World -> World) : M unit := fun w => (Normal tt, f w).

Definition setQuery (v : string) : M unit :=
  modify (fun w => mkWorld v (loading w) (allResults w) (visibleCount w)
                           (error w) (showHistoryView w) (history w) (trace w)).
Definition setLoading (v : bool) : M unit :=
  modify (fun w => mkWorld (query w) v (allResults w) (visibleCount w)
                           (error w) (showHistoryView w) (history w) (trace w)).
Definition setAllResults (v : list SearchResult) : M unit :=
  modify (fun w => mkWorld (query w) (loading w) v (visibleCount w)
                           (error w) (showHistoryView w) (history w) (trace w)).
Definition setVisibleCount (v : Z) : M unit :=
  modify (fun w => mkWorld (query w) (loading w) (allResults w) v
                           (error w) (showHistoryView w) (history w) (trace w)).
Definition setError (v : JsValue) : M unit :=
  modify (fun w => mkWorld (query w) (loading w) (allResults w) (visibleCount w)
                           v (showHistoryView w) (history w) (trace w)).
Definition setShowHistoryView (v : bool) : M unit :=
  modify (fun w => mkWorld (query w) (loading w) (allResults w) (visibleCount w)
                           (error w) v (history w) (trace w)).
Definition setHistory (v : list string) : M unit :=
  modify (fun w => mkWorld (query w) (loading w) (allResults w) (visibleCount w)
                           (error w) (showHistoryView w) v (trace w)).
Definition emit (e : Effect) : M unit :=
  modify (fun w => mkWorld (query w) (loading w) (allResults w) (visibleCount w)
                           (error w) (showHistoryView w) (history w) (trace w ++ [e])).

(** [a || b] where [a] is an optional string argument. *)
Definition or_else (a : option string) (b : string) : string :=
  match a with
  | Some s => if truthy s then s else b
  | None => b
  end.

(** Truthiness of an optional string ([undefined] and [""] are falsy). *)
Definition truthy_opt (a : option string) : bool :=
  match a with
  | Some s => truthy s
  | None => false
  end.

(* ================================================================== *)
(** ** The oracle client: [validateAndSearch] *)
(* ================================================================== *)

(** [validateAndSearch(query, role)]: one request carrying [query] and
    [role]; the reply text goes through [JSON.parse] and is returned as it
    is, with no check of its shape.  [None] is the reply [null]. *)
Definition validateAndSearch
  (oracle : string -> UserRole -> OracleReply)
  (query : string) (role : UserRole) : M (option ValidationResponse) :=
  (emit (OracleCall query role) ;;
   match oracle query role with
   | Rejects => throw OracleFailure
   | ResolvesNull => ret None
   | Resolves r => ret (Some r)
   end)%js.

(** Reading a property of the reply: a [TypeError] on [null]. *)
Definition fieldsOf (aiResponse : option ValidationResponse)
  : Completion ValidationResponse :=
  match aiResponse with
  | None => Throw TypeError
  | Some r => Normal r
  end.

(* ================================================================== *)
(** ** The search orchestrator: [handleSearch] *)
(* ================================================================== *)

Section SearchMock.

(** The two string methods of the platform that the component calls,
    [String.prototype.toLowerCase] and [String.prototype.trim].  They are
    left open here: what is proved of the component holds for whatever
    these functions are, and [JsString.toLowerCase] and [JsString.trim]
    are what they do on ASCII text. *)
Variable toLowerCase : string -> string.
Variable trim : string -> string.

(** The block lists of [constants.ts] (absent from src/). *)
Variable BLOCKED_TLDS : list string.
Variable BLOCKED_SITES : list string.

(** The props of the component: the role, and the parent's handler for a
    validated query, as a function on the ledger. *)
Variable role : UserRole.
Variable onAddHistory : string -> list string -> list string.

(** The body of [suggestedLinks.map(link => ...)]: the content filter. *)
Definition classifyLink (searchQuery : string) (link : RawLink)
  : Completion SearchResult :=
  match url link with
  | None => Throw TypeError
  | Some u =>
      let url := toLowerCase u in
      let isBlockedTLD := some (fun tld => endsWith url tld) BLOCKED_TLDS in
      let isBlockedSite := some (fun site => includes url site) BLOCKED_SITES in
      let isYoutube := includes url "youtube.com" || includes url "youtu.be" in
      let isLearningPath := includes url "youtube.com/learning" in
      let isAllowedRole :=
        UserRole_eqb role STUDENT || UserRole_eqb role TEACHER in
      let isExplicitVideoSearch :=
        includes (toLowerCase searchQuery) "video"
        || includes (toLowerCase searchQuery) "youtube" in
      let allowYoutubeException :=
        isAllowedRole && (isLearningPath || isExplicitVideoSearch) in
      let isBlocked :=
        isBlockedTLD || isBlockedSite || (isYoutube && negb allowYoutubeException) in
      Normal (mkSearchResult
                link
                (includes url ".gov" || includes url ".edu" || includes url ".org")
                isBlocked
                (if isBlocked then "Restricted by focus filter." else ""))
  end.

(** [links.map(f)] for an [f] that may throw: the first throw ends it. *)
Fixpoint mapLinks (searchQuery : string) (links : list RawLink)
  : Completion (list SearchResult) :=
  match links with
  | [] => Normal []
  | l :: rest =>
      match classifyLink searchQuery l with
      | Throw e => Throw e
      | Normal r =>
          match mapLinks searchQuery rest with
          | Throw e => Throw e
          | Normal rs => Normal (r :: rs)
          end
      end
  end.

(** [aiResponse.suggestedLinks.map(...)]: a missing array is a [TypeError]. *)
Definition classifyAll (searchQuery : string) (aiResponse : ValidationResponse)
  : Completion (list SearchResult) :=
  match suggestedLinks aiResponse with
  | None => Throw TypeError
  | Some links => mapLinks searchQuery links
  end.

(** [onAddHistory(searchQuery)] *)
Definition callOnAddHistory (searchQuery : string) : M unit :=
  (emit (AddHistory searchQuery) ;;
   h <- gets history ;;
   setHistory (onAddHistory searchQuery h))%js.

(** [handleSearch(e, explicitQuery)], run from the click to the end of
    its [finally] block; [oracle] is what the outside answers with. *)
Definition handleSearch
  (oracle : string -> UserRole -> OracleReply)
  (explicitQuery : option string) : M unit :=
  (q <- gets query ;;
   let searchQuery := or_else explicitQuery q in
   if negb (truthy (trim searchQuery)) then ret tt
   else
     setLoading true ;;
     setError JNull ;;
     setAllResults [] ;;
     setVisibleCount 6 ;;
     setShowHistoryView false ;;
     (if negb (truthy_opt explicitQuery) then setQuery searchQuery else ret tt) ;;
     tryCatchFinally
       (aiResponse <- validateAndSearch oracle searchQuery role ;;
        fields <- lift (fieldsOf aiResponse) ;;
        if negb (truthy_value (isValid fields)) then
          setError (reason fields) ;;
          setLoading false
        else
          callOnAddHistory searchQuery ;;
          results <- lift (classifyAll searchQuery fields) ;;
          setAllResults results)
       (fun _ => setError (JString "Search failed. Please try again later."))
       (setLoading false))%js.

End SearchMock.

(* ================================================================== *)
(** ** The focus timer: [Timer] *)
(* ================================================================== *)

Local Open Scope Z_scope.

(** The [useState] cells of the component. *)
Record TimerState : Type := mkTimerState {
  timeLeft : Z;
  durationHours : Z;
  durationMinutes : Z;
  initialTotalSeconds : Z
}.

(** The two flags the parent passes down. *)
Record TimerProps : Type := mkTimerProps {
  isActive : bool;
  isPaused : bool
}.

(** Callbacks of the parent that the timer itself invokes. *)
Inductive TimerSignal : Type := OnStartLock | OnTimerEnd.

(** The state at mount: [useState(0)], [useState(0)], [useState(25)],
    [useState(0)]. *)
Definition initialTimer : TimerState := mkTimerState 0 0 25 0.

Definition setTimeLeft (v : Z) (st : TimerState) : TimerState :=
  mkTimerState v (durationHours st) (durationMinutes st) (initialTotalSeconds st).
Definition setInitialTotalSeconds (v : Z) (st : TimerState) : TimerState :=
  mkTimerState (timeLeft st) (durationHours st) (durationMinutes st) v.
Definition setDurationHours (v : Z) (st : TimerState) : TimerState :=
  mkTimerState (timeLeft st) v (durationMinutes st) (initialTotalSeconds st).
Definition setDurationMinutes (v : Z) (st : TimerState) : TimerState :=
  mkTimerState (timeLeft st) (durationHours st) v (initialTotalSeconds st).

(** [parseInt(text) || 0]: [None] stands for [NaN]. *)
Definition parsed_or_zero (v : option Z) : Z :=
  match v with
  | Some n => n
  | None => 0
  end.

(** The [onChange] handlers of the two inputs. *)
Definition onHoursChange (v : option Z) (st : TimerState) : TimerState :=
  setDurationHours (Z.max 0 (parsed_or_zero v)) st.
Definition onMinutesChange (v : option Z) (st : TimerState) : TimerState :=
  setDurationMinutes (Z.max 0 (Z.min 59 (parsed_or_zero v))) st.

(** [startTimer] from its guard on: what it does once [totalSeconds] is
    known. *)
Definition start (totalSeconds : Z) (st : TimerState)
  : TimerState * list TimerSignal :=
  if totalSeconds <=? 0 then (st, [])
  else (setTimeLeft totalSeconds (setInitialTotalSeconds totalSeconds st),
        [OnStartLock]).

(** [(durationHours * 3600) + (durationMinutes * 60)], exact while the
    total is at most 2^53. *)
Definition totalSecondsOf (st : TimerState) : Z :=
  durationHours st * 3600 + durationMinutes st * 60.

(** [startTimer()] *)
Definition startTimer (st : TimerState) : TimerState * list TimerSignal :=
  start (totalSecondsOf st) st.

(** The guard of the ticking effect: an interval exists exactly when the
    timer is active, has time left and is not paused. *)
Definition intervalRuns (p : TimerProps) (st : TimerState) : bool :=
  negb (negb (isActive p) || (timeLeft st <=? 0) || isPaused p).

(** The updater handed to [setTimeLeft] by the interval callback;
    [prev - 1] is exact for [prev] up to 2^53. *)
Definition countDown (prev : Z) : Z * list TimerSignal :=
  if prev <=? 1 then (0, [OnTimerEnd]) else (prev - 1, []).

(** One elapsed second under the props [p]: the interval fires if it
    exists, and nothing happens otherwise. *)
Definition tick (p : TimerProps) (st : TimerState)
  : TimerState * list TimerSignal :=
  if intervalRuns p st then
    let '(next, signals) := countDown (timeLeft st) in
    (setTimeLeft next st, signals)
  else (st, []).

(** Successive seconds, each under the props of its moment; the signals
    are collected in order. *)
Fixpoint ticks (ps : list TimerProps) (st : TimerState)
  : TimerState * list TimerSignal :=
  match ps with
  | [] => (st, [])
  | p :: rest =>
      let '(st1, s1) := tick p st in
      let '(st2, s2) := ticks rest st1 in
      (st2, (s1 ++ s2)%list)
  end.

(** The two branches of the render function. *)
Inductive View : Type :=
| RunningClock (paused : bool)
| SetupScreen.

Definition render (p : TimerProps) (st : TimerState) : View :=
  if isActive p && (0 <? timeLeft st) then RunningClock (isPaused p)
  else SetupScreen.

(** The states of the session, read off the component: the running clock
    is [Locked] or [Paused]; on the setup screen the session is [Ended]
    once the end of the timer has been signalled and [Idle] before. *)
Inductive SessionState : Type := Idle | Locked | Paused | Ended.

Definition is_end (s : TimerSignal) : bool :=
  match s with
  | OnTimerEnd => true
  | OnStartLock => false
  end.

Definition sessionState
  (p : TimerProps) (st : TimerState) (signals : list TimerSignal)
  : SessionState :=
  match render p st with
  | RunningClock true => Paused
  | RunningClock false => Locked
  | SetupScreen => if existsb is_end signals then Ended else Idle
  end.

(** The props while the session is locked, and before any session. *)
Definition lockedProps : TimerProps := mkTimerProps true false.
Definition idleProps : TimerProps := mkTimerProps false false.

(* ================================================================== *)
(** ** Observations on runs, and the data of the examples *)
(* ================================================================== *)

(** The number of [onAddHistory] calls in a log. *)
Fixpoint historyCalls (t : list Effect) : nat :=
  match t with
  | [] => 0%nat
  | AddHistory _ :: rest => S (historyCalls rest)
  | OracleCall _ _ :: rest => historyCalls rest
  end.

(** The number of oracle requests in a log. *)
Fixpoint oracleCalls (t : list Effect) : nat :=
  match t with
  | [] => 0%nat
  | OracleCall _ _ :: rest => S (oracleCalls rest)
  | AddHistory _ :: rest => oracleCalls rest
  end.

(** A log in which every hand-over to the ledger comes straight after
    the oracle request for the same query, and every request carries
    [role]. *)
Fixpoint ledgerFollowsOracle (role : UserRole) (t : list Effect) : bool :=
  match t with
  | [] => true
  | AddHistory _ :: _ => false
  | OracleCall q r :: rest =>
      UserRole_eqb r role &&
      match rest with
      | AddHistory q' :: rest' =>
          String.eqb q q' && ledgerFollowsOracle role rest'
      | _ => ledgerFollowsOracle role rest
      end
  end.

(** One search after the other, each with the answer the outside gives
    to it. *)
Fixpoint handleSearches
  (toLowerCase trim : string -> string)
  (tlds sites : list string) (role : UserRole)
  (onAddHistory : string -> list string -> list string)
  (calls : list ((string -> UserRole -> OracleReply) * option string))
  (w : World) : World :=
  match calls with
  | [] => w
  | (oracle, explicitQuery) :: rest =>
      handleSearches toLowerCase trim tlds sites role onAddHistory rest
        (snd (handleSearch toLowerCase trim tlds sites role onAddHistory
                oracle explicitQuery w))
  end.

(** Every character of [s] is white space. *)
Fixpoint all_white_space (s : string) : bool :=
  match s with
  | EmptyString => true
  | String c r => is_white_space c && all_white_space r
  end.

(** Modelled from the spec: the parent's [onAddHistory] handler is absent
    from src/; the ledger holds distinct queries, so this one keeps the
    ledger when the query is already there and puts it in front
    otherwise.  It only serves to run the examples. *)
Definition sampleAddHistory (q : string) (h : list string) : list string :=
  if existsb (String.eqb q) h then h else q :: h.

Definition sampleLink (u : string) : RawLink :=
  mkRawLink (Some "A title") (Some u) (Some "A snippet") None.

Definition sampleResult : SearchResult :=
  mkSearchResult (sampleLink "https://ocw.mit.edu/") true false "".

(** A search box holding [q], with one earlier result on display and one
    query in the ledger. *)
Definition sampleWorld (q : string) : World :=
  mkWorld q false [sampleResult] 6 JNull false ["calculus"] [].

(** Replies of the oracle. *)
Definition replyValid (links : option (list RawLink)) : string -> UserRole -> OracleReply :=
  fun _ _ => Resolves (mkValidationResponse (JBool true) (JString "Relevant.") links).
Definition replyInvalid (why : string) : string -> UserRole -> OracleReply :=
  fun _ _ => Resolves (mkValidationResponse (JBool false) (JString why) (Some [])).
Definition replyFails : string -> UserRole -> OracleReply :=
  fun _ _ => Rejects.
Definition replyNull : string -> UserRole -> OracleReply :=
  fun _ _ => ResolvesNull.

(** The search component on ASCII text. *)
Definition asciiSearch := handleSearch JsString.toLowerCase JsString.trim.
Definition asciiClassify := classifyLink JsString.toLowerCase.

(* ================================================================== *)
(** ** The views of the search component *)
(* ================================================================== *)

(** [l.slice(s, e)]: a negative index counts from the end, and both ends
    are cut to the list. *)
Definition slice {A : Type} (l : list A) (s e : Z) : list A :=
  let len := Z.of_nat (length l) in
  let from := if s <? 0 then Z.max (len + s) 0 else Z.min s len in
  let to := if e <? 0 then Z.max (len + e) 0 else Z.min e len in
  firstn (Z.to_nat (to - from)) (skipn (Z.to_nat from) l).

(** The [useMemo] of the history panel: the entries that contain the
    filter text, letter case aside. *)
Definition filteredHistory (toLowerCase : string -> string)
  (history : list string) (historyFilter : string) : list string :=
  filter (fun item => includes (toLowerCase item) (toLowerCase historyFilter))
         history.

(** [history.slice(0, 4)], the quick-access row. *)
Definition recentHistory (history : list string) : list string :=
  slice history 0 4.

(** The label [+N more] of that row, shown when [history.length > 4]. *)
Definition moreHistory (history : list string) : option Z :=
  if Z.of_nat (length history) >? 4
  then Some (Z.of_nat (length history) - 4)
  else None.

(** [allResults.slice(0, visibleCount)], the cards on display. *)
Definition visibleResults (w : World) : list SearchResult :=
  slice (allResults w) 0 (visibleCount w).

(** [allResults.length > visibleCount]: the Load More button is there. *)
Definition loadMoreShown (w : World) : bool :=
  Z.of_nat (length (allResults w)) >? visibleCount w.

(** The click on Load More: [setVisibleCount(v => v + 6)]. *)
Definition loadMore : M unit :=
  (v <- gets visibleCount ;; setVisibleCount (v + 6))%js.

(** [k] clicks on Load More. *)
Fixpoint loadMoreTimes (k : nat) (w : World) : World :=
  match k with
  | O => w
  | S k' => loadMoreTimes k' (snd (loadMore w))
  end.

(* ================================================================== *)
(** ** The clock face: [formatTime] *)
(* ================================================================== *)

(** [n.toString()] for an integer below 10^21, where JavaScript prints
    every digit. *)
Definition toString (n : Z) : string := NilZero.string_of_int (Z.to_int n).

(** The next [n] characters of the endless repetition of [pad], [cur]
    being what is left of the copy at hand. *)
Fixpoint fill (n : nat) (pad cur : string) : string :=
  match n with
  | O => EmptyString
  | S n' =>
      match cur with
      | String c r => String c (fill n' pad r)
      | EmptyString =>
          match pad with
          | String c r => String c (fill n' pad r)
          | EmptyString => EmptyString
          end
      end
  end.

(** [s.padStart(targetLength, padString)] *)
Definition padStart (s : string) (targetLength : nat) (padString : string)
  : string :=
  fill (targetLength - String.length s) padString padString ++ s.

(** [formatTime(totalSeconds)] *)
Definition formatTime (totalSeconds : Z) : string :=
  let hrs := totalSeconds / 3600 in
  let mins := Z.rem totalSeconds 3600 / 60 in
  let secs := Z.rem totalSeconds 60 in
  let hDisplay := if 0 <? hrs then padStart (toString hrs) 2 "0" ++ ":" else "" in
  let mDisplay := padStart (toString mins) 2 "0" in
  let sDisplay := padStart (toString secs) 2 "0" in
  hDisplay ++ mDisplay ++ ":" ++ sDisplay.

(** The decimal digit [d]. *)
Definition digit (d : Z) : ascii := ascii_of_nat (48 + Z.to_nat d).

(* ================================================================== *)
(** ** The profile form: [ProfileSetup] *)
(* ================================================================== *)

(** The interface [UserProfile] is declared in [types.ts], which is
    absent from src/; these are the fields [ProfileSetup.tsx] writes and
    reads, the optional ones as options. *)
Module UserProfile.

Record t : Type := mk {
  name : string;
  role : UserRole;
  email : option string;
  passwordHash : option string;
  isLocked : bool;
  isGuest : option bool
}.

End UserProfile.

Module ProfileSetup.

(** The [useState] cells of the form. *)
Record State : Type := mkState {
  email : string;
  name : string;
  role : UserRole;
  password : string;
  confirmPassword : string;
  isKnownUser : bool;
  error : option string;
  registeredUsers : list UserProfile.t
}.

(** The form in its surroundings: the item [momo_registered_users] of
    the local storage, held as the list it is the JSON text of, and the
    profiles handed to [onComplete], in order. *)
Record Page : Type := mkPage {
  cells : State;
  storage : option (list UserProfile.t);
  completed : list UserProfile.t
}.

Definition setEmail (v : string) (st : State) : State :=
  mkState v (name st) (role st) (password st) (confirmPassword st)
          (isKnownUser st) (error st) (registeredUsers st).
Definition setName (v : string) (st : State) : State :=
  mkState (email st) v (role st) (password st) (confirmPassword st)
          (isKnownUser st) (error st) (registeredUsers st).
Definition setRole (v : UserRole) (st : State) : State :=
  mkState (email st) (name st) v (password st) (confirmPassword st)
          (isKnownUser st) (error st) (registeredUsers st).
Definition setPassword (v : string) (st : State) : State :=
  mkState (email st) (name st) (role st) v (confirmPassword st)
          (isKnownUser st) (error st) (registeredUsers st).
Definition setConfirmPassword (v : string) (st : State) : State :=
  mkState (email st) (name st) (role st) (password st) v
          (isKnownUser st) (error st) (registeredUsers st).
Definition setIsKnownUser (v : bool) (st : State) : State :=
  mkState (email st) (name st) (role st) (password st) (confirmPassword st)
          v (error st) (registeredUsers st).
Definition setError (v : option string) (st : State) : State :=
  mkState (email st) (name st) (role st) (password st) (confirmPassword st)
          (isKnownUser st) v (registeredUsers st).
Definition setRegisteredUsers (v : list UserProfile.t) (st : State) : State :=
  mkState (email st) (name st) (role st) (password st) (confirmPassword st)
          (isKnownUser st) (error st) v.

Definition withCells (st : State) (pg : Page) : Page :=
  mkPage st (storage pg) (completed pg).

(** [onComplete(profile)] *)
Definition onComplete (profile : UserProfile.t) (pg : Page) : Page :=
  mkPage (cells pg) (storage pg) (completed pg ++ [profile]).

(** [localStorage.setItem('momo_registered_users', JSON.stringify(list))] *)
Definition setItem (users : list UserProfile.t) (pg : Page) : Page :=
  mkPage (cells pg) (Some users) (completed pg).

(** [u.email?.toLowerCase() === email.toLowerCase()] *)
Definition sameEmail (email : string) (u : UserProfile.t) : bool :=
  match UserProfile.email u with
  | Some e => String.eqb (toLowerCase e) (toLowerCase email)
  | None => false
  end.

(** [registeredUsers.find(u => ...)] *)
Definition findUser (users : list UserProfile.t) (email : string)
  : option UserProfile.t :=
  find (sameEmail email) users.

(** [user.passwordHash === password] *)
Definition passwordMatches (user : UserProfile.t) (password : string) : bool :=
  match UserProfile.passwordHash user with
  | Some h => String.eqb h password
  | None => false
  end.

(** The state the component starts in. *)
Definition initialState : State :=
  mkState "" "" UNSET "" "" false None [].

(** The first effect: the saved users are read once, at mount. *)
Definition loadRegisteredUsers (pg : Page) : Page :=
  match storage pg with
  | Some saved => withCells (setRegisteredUsers saved (cells pg)) pg
  | None => pg
  end.

(** The second effect, run whenever [email] or [registeredUsers] has
    changed: a known address switches the form to signing in and selects
    the saved role. *)
Definition detectKnownUser (st : State) : State :=
  match findUser (registeredUsers st) (email st) with
  | Some user => setRole (UserProfile.role user) (setIsKnownUser true st)
  | None => setIsKnownUser false st
  end.

(** The component once mounted over a storage, both effects done. *)
Definition mount (saved : option (list UserProfile.t)) : Page :=
  let pg := loadRegisteredUsers (mkPage (detectKnownUser initialState) saved []) in
  withCells (detectKnownUser (cells pg)) pg.

(** Typing in the address box, with the effect that follows.  The effect
    depends on [email]: setting the text the box already holds changes no
    state and runs nothing. *)
Definition onEmailChange (v : string) (pg : Page) : Page :=
  if String.eqb v (email (cells pg)) then pg
  else withCells (detectKnownUser (setEmail v (cells pg))) pg.

Definition onNameChange (v : string) (pg : Page) : Page :=
  withCells (setName v (cells pg)) pg.
Definition onPasswordChange (v : string) (pg : Page) : Page :=
  withCells (setPassword v (cells pg)) pg.
Definition onConfirmPasswordChange (v : string) (pg : Page) : Page :=
  withCells (setConfirmPassword v (cells pg)) pg.

(** [error?.includes("role")] *)
Definition errorMentionsRole (e : option string) : bool :=
  match e with
  | Some msg => includes msg "role"
  | None => false
  end.

(** The click on one of the three role buttons. *)
Definition onRoleClick (r : UserRole) (pg : Page) : Page :=
  let st := setRole r (cells pg) in
  withCells (if errorMentionsRole (error (cells pg)) then setError None st else st) pg.

(** [handleGuest()] *)
Definition handleGuest (pg : Page) : Page :=
  let st := cells pg in
  if UserRole_eqb (role st) UNSET then
    withCells (setError (Some "Please pick a role to continue as guest.") st) pg
  else
    onComplete (UserProfile.mk "Guest User" (role st) None None false (Some true)) pg.

(** [handleSubmit(e)] *)
Definition handleSubmit (pg : Page) : Page :=
  let st := cells pg in
  let pg := withCells (setError None st) pg in
  if UserRole_eqb (role st) UNSET then
    withCells (setError (Some "A field must be chosen: Please select a role.")
                 (cells pg)) pg
  else if isKnownUser st then
    match findUser (registeredUsers st) (email st) with
    | Some user =>
        if passwordMatches user (password st) then onComplete user pg
        else withCells (setError (Some "Incorrect password for this email.")
                          (cells pg)) pg
    | None =>
        withCells (setError (Some "Incorrect password for this email.")
                     (cells pg)) pg
    end
  else if negb (truthy (name st)) || negb (truthy (password st))
          || negb (truthy (email st)) then
    withCells (setError (Some "Please fill in all fields to create your account.")
                 (cells pg)) pg
  else if negb (String.eqb (password st) (confirmPassword st)) then
    withCells (setError (Some "Passwords do not match.") (cells pg)) pg
  else
    let newProfile :=
      UserProfile.mk (name st) (role st) (Some (toLowerCase (email st)))
                     (Some (password st)) false None in
    let updatedList := (registeredUsers st ++ [newProfile])%list in
    onComplete newProfile (setItem updatedList pg).

(** The lower-case addresses of a list of users, those without an
    address left out. *)
Fixpoint addresses (users : list UserProfile.t) : list string :=
  match users with
  | [] => []
  | u :: rest =>
      match UserProfile.email u with
      | Some e => toLowerCase e :: addresses rest
      | None => addresses rest
      end
  end.

(** What the user can do on the form. *)
Inductive Event : Type :=
| TypeEmail (v : string)
| TypeName (v : string)
| TypePassword (v : string)
| TypeConfirmPassword (v : string)
| ClickRole (r : UserRole)
| ClickGuest
| Submit.

Definition step (e : Event) (pg : Page) : Page :=
  match e with
  | TypeEmail v => onEmailChange v pg
  | TypeName v => onNameChange v pg
  | TypePassword v => onPasswordChange v pg
  | TypeConfirmPassword v => onConfirmPasswordChange v pg
  | ClickRole r => onRoleClick r pg
  | ClickGuest => handleGuest pg
  | Submit => handleSubmit pg
  end.

Fixpoint run (events : list Event) (pg : Page) : Page :=
  match events with
  | [] => pg
  | e :: rest => run rest (step e pg)
  end.

(** The users of a storage item, none when the item is not there. *)
Definition savedUsers (saved : option (list UserProfile.t)) : list UserProfile.t :=
  match saved with
  | Some users => users
  | None => []
  end.

End ProfileSetup.

(* ================================================================== *)
(** ** The chat widget: [AIAssistant] *)
(* ================================================================== *)

Module AIAssistant.

(** The two values of [ChatMessage.role]. *)
Inductive Speaker : Type := user | model.

Record ChatMessage : Type := mkChatMessage {
  role : Speaker;
  text : string
}.

Record Point : Type := mkPoint { x : Z; y : Z }.

(** The [useState] cells and the [dragOffset] ref; pixel coordinates are
    taken as integers. *)
Record State : Type := mkState {
  messages : list ChatMessage;
  input : string;
  loading : bool;
  streamingText : string;
  isOpen : bool;
  position : Point;
  isDragging : bool;
  dragOffset : Point
}.

(** What the awaited [chatWithAI] does (the function itself is absent
    from src/): it hands partial texts to its callback, then resolves to
    the full answer or rejects. *)
Inductive ChatOutcome : Type :=
| ChatRejects (streamed : list string)
| ChatResolves (streamed : list string) (fullResponse : string).

(** The widget with the log of its [chatWithAI] calls. *)
Record Widget : Type := mkWidget {
  cells : State;
  asked : list (list ChatMessage * UserRole)
}.

Definition setMessages (v : list ChatMessage) (st : State) : State :=
  mkState v (input st) (loading st) (streamingText st) (isOpen st)
          (position st) (isDragging st) (dragOffset st).
Definition setInput (v : string) (st : State) : State :=
  mkState (messages st) v (loading st) (streamingText st) (isOpen st)
          (position st) (isDragging st) (dragOffset st).
Definition setLoading (v : bool) (st : State) : State :=
  mkState (messages st) (input st) v (streamingText st) (isOpen st)
          (position st) (isDragging st) (dragOffset st).
Definition setStreamingText (v : string) (st : State) : State :=
  mkState (messages st) (input st) (loading st) v (isOpen st)
          (position st) (isDragging st) (dragOffset st).
Definition setIsOpen (v : bool) (st : State) : State :=
  mkState (messages st) (input st) (loading st) (streamingText st) v
          (position st) (isDragging st) (dragOffset st).
Definition setPosition (v : Point) (st : State) : State :=
  mkState (messages st) (input st) (loading st) (streamingText st) (isOpen st)
          v (isDragging st) (dragOffset st).
Definition setIsDragging (v : bool) (st : State) : State :=
  mkState (messages st) (input st) (loading st) (streamingText st) (isOpen st)
          (position st) v (dragOffset st).
Definition setDragOffset (v : Point) (st : State) : State :=
  mkState (messages st) (input st) (loading st) (streamingText st) (isOpen st)
          (position st) (isDragging st) v.

(** The state at mount, in a window of the given size. *)
Definition initialState (innerWidth innerHeight : Z) : State :=
  mkState [] "" false "" false
          (mkPoint (innerWidth - 100) (innerHeight - 100)) false (mkPoint 0 0).

(** The callback handed to [chatWithAI], once per partial text. *)
Fixpoint stream (streamed : list string) (st : State) : State :=
  match streamed with
  | [] => st
  | t :: rest => stream rest (setStreamingText t st)
  end.

(** [handleSend(e)], from the submit to the end of its [finally] block.
    [trim] is [String.prototype.trim], left open as in the search
    component. *)
Definition handleSend
  (trim : string -> string)
  (chatWithAI : list ChatMessage -> UserRole -> ChatOutcome)
  (role : UserRole) (w : Widget) : Widget :=
  let st := cells w in
  if negb (truthy (trim (input st))) || loading st then w
  else
    let userMsgText := trim (input st) in
    let userMsg := mkChatMessage user userMsgText in
    let updatedMessages := (messages st ++ [userMsg])%list in
    let st1 :=
      setStreamingText ""
        (setLoading true (setInput "" (setMessages updatedMessages st))) in
    let st2 :=
      match chatWithAI updatedMessages role with
      | ChatResolves streamed fullResponse =>
          let st' := stream streamed st1 in
          setStreamingText ""
            (setMessages (messages st' ++ [mkChatMessage model fullResponse])%list st')
      | ChatRejects streamed =>
          let st' := stream streamed st1 in
          setStreamingText ""
            (setMessages
               (messages st'
                ++ [mkChatMessage model
                      "I'm sorry, I encountered an error. Please try again."])%list
               st')
      end in
    mkWidget (setLoading false st2) (asked w ++ [(updatedMessages, role)])%list.

(** One message after the other, each with the answer it gets. *)
Fixpoint handleSends
  (trim : string -> string)
  (role : UserRole)
  (turns : list (string * (list ChatMessage -> UserRole -> ChatOutcome)))
  (w : Widget) : Widget :=
  match turns with
  | [] => w
  | (typed, chatWithAI) :: rest =>
      handleSends trim role rest
        (handleSend trim chatWithAI role
           (mkWidget (setInput typed (cells w)) (asked w)))
  end.

(** [clearChat()] *)
Definition clearChat (st : State) : State :=
  setInput "" (setStreamingText "" (setMessages [] st)).

(** [handleMouseDown(e)]: the grab, ignored while the chat is open. *)
Definition handleMouseDown (clientX clientY : Z) (st : State) : State :=
  if isOpen st then st
  else
    setDragOffset (mkPoint (clientX - x (position st)) (clientY - y (position st)))
      (setIsDragging true st).

(** [handleMouseMove(e)], the listener attached while dragging. *)
Definition handleMouseMove
  (innerWidth innerHeight clientX clientY : Z) (st : State) : State :=
  if isDragging st then
    let newX := Z.max 20 (Z.min (innerWidth - 80) (clientX - x (dragOffset st))) in
    let newY := Z.max 20 (Z.min (innerHeight - 80) (clientY - y (dragOffset st))) in
    setPosition (mkPoint newX newY) st
  else st.

(** [handleMouseUp()] *)
Definition handleMouseUp (st : State) : State := setIsDragging false st.

(** The messages of a conversation take turns, the user first. *)
Fixpoint takesTurns (first : Speaker) (ms : list ChatMessage) : bool :=
  match ms with
  | [] => true
  | m :: rest =>
      match first, role m with
      | user, user => takesTurns model rest
      | model, model => takesTurns user rest
      | _, _ => false
      end
  end.

End AIAssistant.

(* ================================================================== *)
(** ** More data for the examples *)
(* ================================================================== *)

(** A reply in which the second link has no [url]. *)
Definition brokenLinks : list RawLink :=
  [sampleLink "https://ocw.mit.edu/";
   mkRawLink (Some "No address") None (Some "A snippet") None].

(** A user saved earlier. *)
Definition savedAda : UserProfile.t :=
  UserProfile.mk "Ada" TEACHER (Some "ada@school.edu") (Some "s3cret") false None.

(** The form filled in for a new account, on a storage that holds Ada. *)
Definition signUpEvents : list ProfileSetup.Event :=
  [ProfileSetup.TypeEmail "Grace@Uni.EDU"; ProfileSetup.TypeName "Grace";
   ProfileSetup.ClickRole STUDENT; ProfileSetup.TypePassword "hopper";
   ProfileSetup.TypeConfirmPassword "hopper"].

Definition signUpForm : ProfileSetup.Page :=
  ProfileSetup.run signUpEvents (ProfileSetup.mount (Some [savedAda])).

Definition newGrace : UserProfile.t :=
  UserProfile.mk "Grace" STUDENT (Some "grace@uni.edu") (Some "hopper") false None.

(** The same form with a second password that differs. *)
Definition mistypedForm : ProfileSetup.Page :=
  ProfileSetup.onConfirmPasswordChange "hoper" signUpForm.

(** An assistant that answers, and one that fails after a partial text. *)
Definition chatAnswers (answer : string)
  : list AIAssistant.ChatMessage -> UserRole -> AIAssistant.ChatOutcome :=
  fun _ _ => AIAssistant.ChatResolves ["Let"; "Let me"] answer.
Definition chatFails
  : list AIAssistant.ChatMessage -> UserRole -> AIAssistant.ChatOutcome :=
  fun _ _ => AIAssistant.ChatRejects ["Let"].

(* ================================================================== *)
(** * Properties *)
(* ================================================================== *)

(** ** The string primitives *)

Example toLowerCase_mixed :
  toLowerCase "HTTPS://YouTube.com/Learning?x=1" = "https://youtube.com/learning?x=1".
Proof. reflexivity. Qed.

Example includes_inner : includes "https://youtu.be/abc" "youtu.be" = true.
Proof. reflexivity. Qed.

Example includes_of_empty : includes "" "" = true.
Proof. reflexivity. Qed.

Example endsWith_suffix : endsWith "http://casino.xyz" ".xyz" = true.
Proof. reflexivity. Qed.

Example endsWith_inner : endsWith "http://casino.xyz/play" ".xyz" = false.
Proof. reflexivity. Qed.

Example trim_both_ends : trim "  deep  work " = "deep  work".
Proof. reflexivity. Qed.

Example trim_blank : trim "  " = "".
Proof. reflexivity. Qed.

Lemma includes_unfold (s sub : string) :
  includes s sub =
  startsWith s sub ||
  match s with
  | EmptyString => false
  | String _ r => includes r sub
  end.
Proof. destruct s; reflexivity. Qed.

Lemma endsWith_unfold (s suf : string) :
  endsWith s suf =
  String.eqb s suf ||
  match s with
  | EmptyString => false
  | String _ r => endsWith r suf
  end.
Proof. destruct s; reflexivity. Qed.

Lemma toLowerCase_app (a b : string) :
  toLowerCase (a ++ b) = toLowerCase a ++ toLowerCase b.
Proof.
  induction a as [| c a IH]; simpl; [reflexivity | now rewrite IH].
Qed.

Lemma startsWith_app (p rest : string) : startsWith (p ++ rest) p = true.
Proof.
  unfold startsWith.
  induction p as [| c p IH]; simpl.
  - now destruct rest.
  - destruct (ascii_dec c c) as [_ | ne]; [exact IH | now elim ne].
Qed.

(** A string that has [sub] somewhere inside includes it. *)
Lemma includes_app (a sub c : string) : includes (a ++ sub ++ c) sub = true.
Proof.
  induction a as [| x a IH].
  - simpl. rewrite includes_unfold, startsWith_app. reflexivity.
  - simpl. rewrite IH. apply orb_true_r.
Qed.

(** A string that has [suf] at its end ends with it. *)
Lemma endsWith_app (a suf : string) : endsWith (a ++ suf) suf = true.
Proof.
  induction a as [| x a IH].
  - simpl. rewrite endsWith_unfold, String.eqb_refl. reflexivity.
  - simpl. rewrite IH. apply orb_true_r.
Qed.

Lemma some_true_iff {A : Type} (p : A -> bool) (l : list A) :
  some p l = true <-> exists x, In x l /\ p x = true.
Proof. unfold some. apply existsb_exists. Qed.

Lemma some_false_iff {A : Type} (p : A -> bool) (l : list A) :
  some p l = false <-> forall x, In x l -> p x = false.
Proof.
  unfold some. induction l as [| y l IH]; simpl.
  - split; [intros _ x [] | reflexivity].
  - rewrite orb_false_iff, IH. split.
    + intros [Hy Hl] x [<- | Hx]; auto.
    + intros H. split; [apply H; now left | intros x Hx; apply H; now right].
Qed.

Lemma trimStart_empty_iff (s : string) :
  trimStart s = "" <-> all_white_space s = true.
Proof.
  induction s as [| c s IH]; simpl.
  - tauto.
  - destruct (is_white_space c); simpl; [exact IH |].
    split; discriminate.
Qed.

Lemma trimStart_head (s : string) :
  match trimStart s with
  | EmptyString => True
  | String c _ => is_white_space c = false
  end.
Proof.
  induction s as [| c s IH]; simpl; [exact I |].
  destruct (is_white_space c) eqn:E; [exact IH | exact E].
Qed.

(** [trim] yields the empty string exactly on the strings made of white
    space only. *)
Lemma trim_empty_iff (s : string) :
  trim s = "" <-> all_white_space s = true.
Proof.
  rewrite <- trimStart_empty_iff. unfold trim.
  pose proof (trimStart_head s) as Hh.
  destruct (trimStart s) as [| c r]; simpl in *.
  - tauto.
  - rewrite Hh. simpl. split; discriminate.
Qed.

Lemma truthy_false_iff (s : string) : truthy s = false <-> s = "".
Proof.
  unfold truthy. rewrite negb_false_iff. apply String.eqb_eq.
Qed.

Lemma truthy_true_iff (s : string) : truthy s = true <-> s <> "".
Proof.
  unfold truthy. rewrite negb_true_iff. apply String.eqb_neq.
Qed.

(** ** The content filter *)

Section ContentFilter.

Variable toLowerCase : string -> string.

Variable BLOCKED_TLDS : list string.
Variable BLOCKED_SITES : list string.

(** The filter fails on a link without [url] and on nothing else. *)
Lemma classifyLink_throws_iff (role : UserRole) (q : string) (l : RawLink) :
  classifyLink toLowerCase BLOCKED_TLDS BLOCKED_SITES role q l = Throw TypeError <-> url l = None.
Proof.
  unfold classifyLink. destruct (url l); split; congruence.
Qed.

(** The flag of a link with a URL, as the three clauses of the source. *)
Lemma classifyLink_isBlocked (role : UserRole) (q : string) (l : RawLink) (u : string) :
  url l = Some u ->
  exists r,
    classifyLink toLowerCase BLOCKED_TLDS BLOCKED_SITES role q l = Normal r /\
    link r = l /\
    isBlocked r =
      (some (fun tld => endsWith (toLowerCase u) tld) BLOCKED_TLDS
       || some (fun site => includes (toLowerCase u) site) BLOCKED_SITES
       || ((includes (toLowerCase u) "youtube.com" || includes (toLowerCase u) "youtu.be")
           && negb ((UserRole_eqb role STUDENT || UserRole_eqb role TEACHER)
                    && (includes (toLowerCase u) "youtube.com/learning"
                        || (includes (toLowerCase q) "video"
                            || includes (toLowerCase q) "youtube"))))) /\
    blockReason r = (if isBlocked r then "Restricted by focus filter." else "").
Proof.
  intros Hu. unfold classifyLink. rewrite Hu.
  eexists. split; [reflexivity |]. simpl. auto.
Qed.

(** C1: a result whose lowercased URL ends with a blocked TLD suffix or
    contains a blocked-site substring is blocked, for every role and
    every query text; the video exception never unblocks it. *)
Theorem blocklisted_url_is_blocked
  (role : UserRole) (q : string) (l : RawLink) (u : string) :
  url l = Some u ->
  (exists tld, In tld BLOCKED_TLDS /\ endsWith (toLowerCase u) tld = true) \/
  (exists site, In site BLOCKED_SITES /\ includes (toLowerCase u) site = true) ->
  exists r,
    classifyLink toLowerCase BLOCKED_TLDS BLOCKED_SITES role q l = Normal r /\
    isBlocked r = true /\
    blockReason r = "Restricted by focus filter.".
Proof.
  intros Hu Hhit.
  destruct (classifyLink_isBlocked role q l u Hu) as (r & Hr & _ & Hb & Hreason).
  exists r. split; [exact Hr |].
  assert (Hblocked : isBlocked r = true).
  { rewrite Hb. destruct Hhit as [Htld | Hsite].
    - apply (some_true_iff (fun tld => endsWith (toLowerCase u) tld)) in Htld.
      rewrite Htld. reflexivity.
    - apply (some_true_iff (fun site => includes (toLowerCase u) site)) in Hsite.
      rewrite Hsite. rewrite orb_true_r. reflexivity. }
  split; [exact Hblocked |]. rewrite Hreason, Hblocked. reflexivity.
Qed.

(** C2, as amended: for the roles STUDENT and TEACHER, a result whose
    lowercased URL contains "youtube.com/learning" and that neither ends
    with a blocked TLD suffix nor contains a blocked-site substring is
    not blocked, for every query text. *)
Theorem learning_path_is_unblocked
  (role : UserRole) (q : string) (l : RawLink) (u : string) :
  role = STUDENT \/ role = TEACHER ->
  url l = Some u ->
  includes (toLowerCase u) "youtube.com/learning" = true ->
  (forall tld, In tld BLOCKED_TLDS -> endsWith (toLowerCase u) tld = false) ->
  (forall site, In site BLOCKED_SITES -> includes (toLowerCase u) site = false) ->
  exists r,
    classifyLink toLowerCase BLOCKED_TLDS BLOCKED_SITES role q l = Normal r /\
    isBlocked r = false /\
    blockReason r = "".
Proof.
  intros Hrole Hu Hlearn Htld Hsite.
  destruct (classifyLink_isBlocked role q l u Hu) as (r & Hr & _ & Hb & Hreason).
  exists r. split; [exact Hr |].
  assert (Hfree : isBlocked r = false).
  { rewrite Hb, Hlearn.
    apply (some_false_iff (fun tld => endsWith (toLowerCase u) tld)) in Htld.
    apply (some_false_iff (fun site => includes (toLowerCase u) site)) in Hsite.
    rewrite Htld, Hsite.
    destruct Hrole as [-> | ->]; simpl; apply andb_false_r. }
  split; [exact Hfree |]. rewrite Hreason, Hfree. reflexivity.
Qed.

(** C3: a YouTube result with no learning path is blocked for every role
    when the lowercased query contains neither "video" nor "youtube". *)
Theorem plain_youtube_is_blocked
  (role : UserRole) (q : string) (l : RawLink) (u : string) :
  url l = Some u ->
  includes (toLowerCase u) "youtube.com" = true \/
  includes (toLowerCase u) "youtu.be" = true ->
  includes (toLowerCase u) "youtube.com/learning" = false ->
  includes (toLowerCase q) "video" = false ->
  includes (toLowerCase q) "youtube" = false ->
  exists r,
    classifyLink toLowerCase BLOCKED_TLDS BLOCKED_SITES role q l = Normal r /\
    isBlocked r = true /\
    blockReason r = "Restricted by focus filter.".
Proof.
  intros Hu Hyt Hlearn Hvideo Hyoutube.
  destruct (classifyLink_isBlocked role q l u Hu) as (r & Hr & _ & Hb & Hreason).
  exists r. split; [exact Hr |].
  assert (Hblocked : isBlocked r = true).
  { rewrite Hb, Hlearn, Hvideo, Hyoutube. simpl. rewrite andb_false_r. simpl.
    destruct Hyt as [-> | ->]; simpl; rewrite ?orb_true_r; reflexivity. }
  split; [exact Hblocked |]. rewrite Hreason, Hblocked. reflexivity.
Qed.

(** The results of a successful map are the links in the order of the
    reply, each with the flags of the filter. *)
Lemma mapLinks_Normal (role : UserRole) (q : string) (links : list RawLink)
  (results : list SearchResult) :
  mapLinks toLowerCase BLOCKED_TLDS BLOCKED_SITES role q links = Normal results ->
  Forall2 (fun l r => classifyLink toLowerCase BLOCKED_TLDS BLOCKED_SITES role q l = Normal r) links results /\
  map link results = links.
Proof.
  revert results. induction links as [| l links IH]; intros results H; simpl in H.
  - injection H as <-. split; constructor.
  - destruct (classifyLink toLowerCase BLOCKED_TLDS BLOCKED_SITES role q l) as [r | e] eqn:Hc; [| discriminate].
    destruct (mapLinks toLowerCase BLOCKED_TLDS BLOCKED_SITES role q links) as [rs | e];
      [| discriminate].
    injection H as <-. destruct (IH rs eq_refl) as [Hall Hmap]. split.
    + constructor; assumption.
    + simpl. rewrite Hmap. f_equal.
      unfold classifyLink in Hc. destruct (url l); [| discriminate].
      injection Hc as <-. reflexivity.
Qed.

(** The map fails exactly when some link has no [url]. *)
Lemma mapLinks_Throw_iff (role : UserRole) (q : string) (links : list RawLink) :
  mapLinks toLowerCase BLOCKED_TLDS BLOCKED_SITES role q links = Throw TypeError <->
  exists l, In l links /\ url l = None.
Proof.
  induction links as [| l links IH]; simpl.
  - split; [discriminate | intros (l & [] & _)].
  - unfold classifyLink at 1. destruct (url l) as [u |] eqn:Hu.
    + destruct (mapLinks toLowerCase BLOCKED_TLDS BLOCKED_SITES role q links) as [rs | e] eqn:Hm.
      * split; [discriminate |]. intros (l' & [<- | Hin] & Hnone); [congruence |].
        destruct IH as [_ IH]. discriminate IH. now exists l'.
      * destruct e.
        -- split; [| reflexivity]. intros _. destruct IH as [IH _].
           destruct (IH eq_refl) as (l' & Hin & Hnone). exists l'. auto.
        -- split; [discriminate |]. intros (l' & [<- | Hin] & Hnone); [congruence |].
           destruct IH as [_ IH]. discriminate IH. now exists l'.
    + split; [| reflexivity]. intros _. exists l. auto.
Qed.

End ContentFilter.

(** Whatever the block lists hold, an entry of the TLD list that is
    written in lower case blocks a learning-path URL that ends with it,
    also for a student.  Stated on ASCII text, with the lowering of
    [JsString]. *)
Lemma learning_path_under_any_blocked_tld
  (BLOCKED_TLDS BLOCKED_SITES : list string)
  (role : UserRole) (q tld : string) :
  In tld BLOCKED_TLDS ->
  toLowerCase tld = tld ->
  let u := "https://www.youtube.com/learning?from=" ++ tld in
  includes (toLowerCase u) "youtube.com/learning" = true /\
  exists r,
    classifyLink JsString.toLowerCase BLOCKED_TLDS BLOCKED_SITES role q
      (sampleLink u) = Normal r /\
    isBlocked r = true.
Proof.
  intros Hin Hlow u. split.
  - unfold u. rewrite toLowerCase_app.
    apply (includes_app "https://www." "youtube.com/learning"
             ("?from=" ++ toLowerCase tld)).
  - destruct (classifyLink_isBlocked JsString.toLowerCase BLOCKED_TLDS
                BLOCKED_SITES role q (sampleLink u) u eq_refl)
      as (r & Hr & _ & Hb & _).
    exists r. split; [exact Hr |]. rewrite Hb.
    assert (Hhit : some (fun t => endsWith (toLowerCase u) t) BLOCKED_TLDS = true).
    { apply some_true_iff. exists tld. split; [exact Hin |].
      unfold u. rewrite toLowerCase_app, Hlow. apply endsWith_app. }
    rewrite Hhit. reflexivity.
Qed.

(** ** The search orchestrator *)

Section Orchestrator.

Variable toLowerCase : string -> string.
Variable trim : string -> string.
Variable BLOCKED_TLDS : list string.
Variable BLOCKED_SITES : list string.
Variable role : UserRole.
Variable onAddHistory : string -> list string -> list string.

(** A blank query: [handleSearch] returns at once and writes nothing. *)
Lemma handleSearch_blank
  (oracle : string -> UserRole -> OracleReply)
  (explicitQuery : option string) (w : World) :
  truthy (trim (or_else explicitQuery (query w))) = false ->
  handleSearch toLowerCase trim BLOCKED_TLDS BLOCKED_SITES role onAddHistory
    oracle explicitQuery w
  = (Normal tt, w).
Proof.
  intros Hblank. unfold handleSearch, bind, gets. simpl.
  rewrite Hblank. reflexivity.
Qed.

(** Any other query: the run of [handleSearch], path by path. *)
Lemma handleSearch_run
  (oracle : string -> UserRole -> OracleReply)
  (explicitQuery : option string) (w : World) :
  truthy (trim (or_else explicitQuery (query w))) = true ->
  handleSearch toLowerCase trim BLOCKED_TLDS BLOCKED_SITES role onAddHistory
    oracle explicitQuery w
  = (Normal tt,
     let searchQuery := or_else explicitQuery (query w) in
     let box := if truthy_opt explicitQuery then query w else searchQuery in
     let asked := (trace w ++ [OracleCall searchQuery role])%list in
     let failed h t :=
       mkWorld box false [] 6 (JString "Search failed. Please try again later.")
               false h t in
     match oracle searchQuery role with
     | Rejects => failed (history w) asked
     | ResolvesNull => failed (history w) asked
     | Resolves r =>
         if truthy_value (isValid r) then
           match classifyAll toLowerCase BLOCKED_TLDS BLOCKED_SITES role
                   searchQuery r with
           | Normal results =>
               mkWorld box false results 6 JNull false
                       (onAddHistory searchQuery (history w))
                       (asked ++ [AddHistory searchQuery])%list
           | Throw _ =>
               failed (onAddHistory searchQuery (history w))
                      (asked ++ [AddHistory searchQuery])%list
           end
         else mkWorld box false [] 6 (reason r) false (history w) asked
     end).
Proof.
  intros Hquery.
  unfold handleSearch, bind, gets. simpl. rewrite Hquery. simpl.
  unfold tryCatchFinally, validateAndSearch, callOnAddHistory, bind, emit, modify,
    gets, lift, ret, throw, setQuery, setLoading, setError, setAllResults,
    setVisibleCount, setShowHistoryView, setHistory.
  destruct (truthy_opt explicitQuery); simpl;
    (destruct (oracle (or_else explicitQuery (query w)) role) as [| | r]; simpl;
     [reflexivity | reflexivity |]);
    (destruct (truthy_value (isValid r)); simpl; [| reflexivity]);
    destruct (classifyAll toLowerCase BLOCKED_TLDS BLOCKED_SITES role
                (or_else explicitQuery (query w)) r); reflexivity.
Qed.

(** [handleSearch] never throws: every failure ends in its [catch]. *)
Lemma handleSearch_completes
  (oracle : string -> UserRole -> OracleReply)
  (explicitQuery : option string) (w : World) :
  fst (handleSearch toLowerCase trim BLOCKED_TLDS BLOCKED_SITES role onAddHistory
         oracle explicitQuery w)
  = Normal tt.
Proof.
  destruct (truthy (trim (or_else explicitQuery (query w)))) eqn:Hq.
  - rewrite handleSearch_run by exact Hq. reflexivity.
  - rewrite handleSearch_blank by exact Hq. reflexivity.
Qed.

Lemma historyCalls_app (t1 t2 : list Effect) :
  historyCalls (t1 ++ t2) = (historyCalls t1 + historyCalls t2)%nat.
Proof.
  induction t1 as [| [q r | q] t1 IH]; simpl; [reflexivity | exact IH | now rewrite IH].
Qed.

Lemma oracleCalls_app (t1 t2 : list Effect) :
  oracleCalls (t1 ++ t2) = (oracleCalls t1 + oracleCalls t2)%nat.
Proof.
  induction t1 as [| [q r | q] t1 IH]; simpl; [reflexivity | now rewrite IH | exact IH].
Qed.

(** The calls that one search of a query that is not blank adds to the
    log, and the ledger after it: the oracle is asked first, and the
    ledger is handed the query when the reply is an object with a truthy
    [isValid], and only then. *)
Lemma handleSearch_calls
  (oracle : string -> UserRole -> OracleReply)
  (explicitQuery : option string) (w : World) :
  let searchQuery := or_else explicitQuery (query w) in
  let w' := snd (handleSearch toLowerCase trim BLOCKED_TLDS BLOCKED_SITES role
                   onAddHistory oracle explicitQuery w) in
  truthy (trim searchQuery) = true ->
  match oracle searchQuery role with
  | Resolves r =>
      if truthy_value (isValid r) then
        trace w' = (trace w ++ [OracleCall searchQuery role; AddHistory searchQuery])%list
        /\ history w' = onAddHistory searchQuery (history w)
      else
        trace w' = (trace w ++ [OracleCall searchQuery role])%list
        /\ history w' = history w
  | _ =>
      trace w' = (trace w ++ [OracleCall searchQuery role])%list
      /\ history w' = history w
  end.
Proof.
  intros searchQuery w' Hquery. unfold w'.
  rewrite handleSearch_run by exact Hquery. cbv zeta. fold searchQuery.
  destruct (oracle searchQuery role) as [| | r]; simpl; [auto | auto |].
  destruct (truthy_value (isValid r)); simpl; [| auto].
  destruct (classifyAll toLowerCase BLOCKED_TLDS BLOCKED_SITES role searchQuery r);
    simpl; rewrite <- app_assoc; auto.
Qed.

End Orchestrator.

Section SearchOutcomes.

Variable toLowerCase : string -> string.
Variable trim : string -> string.
Variable BLOCKED_TLDS : list string.
Variable BLOCKED_SITES : list string.
Variable role : UserRole.
Variable onAddHistory : string -> list string -> list string.

(** C4, as amended: for a query that is not blank and a reply without
    [suggestedLinks], the result set on display is empty afterwards (it
    is cleared before the oracle is asked).  A reply that is [null]
    gives the generic failure message and leaves the ledger as it was;
    with a truthy [isValid] the query has been handed to the ledger and
    the generic failure message is shown; with a falsy or missing
    [isValid] the reason of the reply is what [setError] gets and the
    ledger is as it was. *)
Theorem reply_without_links_outcome
  (oracle : string -> UserRole -> OracleReply)
  (explicitQuery : option string) (w : World) :
  let searchQuery := or_else explicitQuery (query w) in
  let w' := snd (handleSearch toLowerCase trim BLOCKED_TLDS BLOCKED_SITES role
                   onAddHistory oracle explicitQuery w) in
  truthy (trim searchQuery) = true ->
  (oracle searchQuery role = ResolvesNull ->
   allResults w' = [] /\
   error w' = JString "Search failed. Please try again later." /\
   history w' = history w /\
   trace w' = (trace w ++ [OracleCall searchQuery role])%list) /\
  (forall r,
      oracle searchQuery role = Resolves r ->
      suggestedLinks r = None ->
      allResults w' = [] /\
      loading w' = false /\
      (truthy_value (isValid r) = true ->
       error w' = JString "Search failed. Please try again later." /\
       history w' = onAddHistory searchQuery (history w) /\
       trace w'
       = (trace w ++ [OracleCall searchQuery role; AddHistory searchQuery])%list) /\
      (truthy_value (isValid r) = false ->
       error w' = reason r /\
       history w' = history w /\
       trace w' = (trace w ++ [OracleCall searchQuery role])%list)).
Proof.
  intros searchQuery w' Hquery. unfold w'.
  rewrite handleSearch_run by exact Hquery. cbv zeta. fold searchQuery. split.
  - intros ->. simpl. auto.
  - intros r -> Hlinks. unfold classifyAll. rewrite Hlinks.
    destruct (truthy_value (isValid r)); simpl;
      (split; [reflexivity |]); (split; [reflexivity |]);
      split; intros H; try discriminate H; rewrite <- ?app_assoc; auto.
Qed.

(** C6: a query that trims to the empty string makes [handleSearch]
    return at once; the oracle is not asked, the ledger and every other
    piece of state stay as they were. *)
Theorem blank_query_is_rejected_locally
  (oracle : string -> UserRole -> OracleReply)
  (explicitQuery : option string) (w : World) :
  trim (or_else explicitQuery (query w)) = "" ->
  handleSearch toLowerCase trim BLOCKED_TLDS BLOCKED_SITES role onAddHistory
    oracle explicitQuery w
  = (Normal tt, w) /\
  let w' := snd (handleSearch toLowerCase trim BLOCKED_TLDS BLOCKED_SITES role
                   onAddHistory oracle explicitQuery w) in
  oracleCalls (trace w') = oracleCalls (trace w) /\
  trace w' = trace w /\
  history w' = history w.
Proof.
  intros Hblank. apply truthy_false_iff in Hblank.
  rewrite handleSearch_blank by exact Hblank. auto.
Qed.

(** C7: when the oracle answers with a falsy [isValid], its reason is
    what is shown and the ledger is not written; the ledger is written
    once for a query the oracle validates, and not at all for a query
    that is blank, turned down, or whose oracle call fails. *)
Theorem oracle_rejection_keeps_history
  (oracle : string -> UserRole -> OracleReply)
  (explicitQuery : option string) (w : World) :
  let searchQuery := or_else explicitQuery (query w) in
  let w' := snd (handleSearch toLowerCase trim BLOCKED_TLDS BLOCKED_SITES role
                   onAddHistory oracle explicitQuery w) in
  (forall r,
      trim searchQuery <> "" ->
      oracle searchQuery role = Resolves r ->
      truthy_value (isValid r) = false ->
      error w' = reason r /\
      history w' = history w /\
      trace w' = (trace w ++ [OracleCall searchQuery role])%list /\
      historyCalls (trace w') = historyCalls (trace w)) /\
  (forall r,
      trim searchQuery <> "" ->
      oracle searchQuery role = Resolves r ->
      truthy_value (isValid r) = true ->
      history w' = onAddHistory searchQuery (history w) /\
      trace w'
      = (trace w ++ [OracleCall searchQuery role; AddHistory searchQuery])%list /\
      historyCalls (trace w') = S (historyCalls (trace w))) /\
  (trim searchQuery = "" \/ oracle searchQuery role = Rejects
   \/ oracle searchQuery role = ResolvesNull ->
   history w' = history w /\
   historyCalls (trace w') = historyCalls (trace w)).
Proof.
  intros searchQuery w'. split; [| split].
  - intros r Hquery Hreply Hflag. apply truthy_true_iff in Hquery.
    pose proof (handleSearch_calls toLowerCase trim BLOCKED_TLDS BLOCKED_SITES
                  role onAddHistory oracle explicitQuery w Hquery) as Hc.
    cbv zeta in Hc. fold searchQuery in Hc. fold w' in Hc.
    rewrite Hreply, Hflag in Hc. destruct Hc as [Ht Hh].
    split; [| split; [exact Hh | split; [exact Ht |]]].
    + unfold w'. rewrite handleSearch_run by exact Hquery. cbv zeta.
      fold searchQuery. rewrite Hreply, Hflag. reflexivity.
    + rewrite Ht, historyCalls_app. simpl. lia.
  - intros r Hquery Hreply Hflag. apply truthy_true_iff in Hquery.
    pose proof (handleSearch_calls toLowerCase trim BLOCKED_TLDS BLOCKED_SITES
                  role onAddHistory oracle explicitQuery w Hquery) as Hc.
    cbv zeta in Hc. fold searchQuery in Hc. fold w' in Hc.
    rewrite Hreply, Hflag in Hc. destruct Hc as [Ht Hh].
    split; [exact Hh |]. split; [exact Ht |].
    rewrite Ht, historyCalls_app. simpl. lia.
  - intros Hnone.
    destruct (truthy (trim searchQuery)) eqn:Hquery.
    + pose proof (handleSearch_calls toLowerCase trim BLOCKED_TLDS BLOCKED_SITES
                    role onAddHistory oracle explicitQuery w Hquery) as Hc.
      cbv zeta in Hc. fold searchQuery in Hc. fold w' in Hc.
      destruct Hnone as [Hblank | [Hr | Hr]].
      * apply truthy_false_iff in Hblank. congruence.
      * rewrite Hr in Hc. destruct Hc as [Ht Hh]. split; [exact Hh |].
        rewrite Ht, historyCalls_app. simpl. lia.
      * rewrite Hr in Hc. destruct Hc as [Ht Hh]. split; [exact Hh |].
        rewrite Ht, historyCalls_app. simpl. lia.
    + unfold w'. rewrite handleSearch_blank by exact Hquery. auto.
Qed.

(** C10: for a query that is not blank, the string sent to the oracle
    and the string handed to the ledger are the query as typed; no other
    string, so not its trimmed form either, is sent or stored. *)
Theorem raw_query_is_sent_and_stored
  (oracle : string -> UserRole -> OracleReply)
  (explicitQuery : option string) (w : World) :
  let searchQuery := or_else explicitQuery (query w) in
  let w' := snd (handleSearch toLowerCase trim BLOCKED_TLDS BLOCKED_SITES role
                   onAddHistory oracle explicitQuery w) in
  trim searchQuery <> "" ->
  exists calls,
    trace w' = (trace w ++ OracleCall searchQuery role :: calls)%list /\
    (forall other r,
        other <> searchQuery ->
        ~ In (OracleCall other r) calls /\ ~ In (AddHistory other) calls) /\
    (forall r,
        oracle searchQuery role = Resolves r ->
        truthy_value (isValid r) = true ->
        calls = [AddHistory searchQuery] /\
        history w' = onAddHistory searchQuery (history w)).
Proof.
  intros searchQuery w' Hquery. apply truthy_true_iff in Hquery.
  pose proof (handleSearch_calls toLowerCase trim BLOCKED_TLDS BLOCKED_SITES
                role onAddHistory oracle explicitQuery w Hquery) as Hc.
  cbv zeta in Hc. fold searchQuery in Hc. fold w' in Hc.
  destruct (oracle searchQuery role) as [| | r] eqn:Hreply.
  - exists []. destruct Hc as [Ht _]. split; [exact Ht |].
    split; [intros other r _; split; intros [] | intros r [=]].
  - exists []. destruct Hc as [Ht _]. split; [exact Ht |].
    split; [intros other r _; split; intros [] | intros r [=]].
  - destruct (truthy_value (isValid r)) eqn:Hflag; destruct Hc as [Ht Hh].
    + exists [AddHistory searchQuery]. split; [exact Ht |]. split.
      * intros other r' Hother. split; intros [H | []]; congruence.
      * intros r' [= <-] _. auto.
    + exists []. split; [exact Ht |].
      split; [intros other r' _; split; intros [] |].
      intros r' [= <-] Hv. congruence.
Qed.

End SearchOutcomes.

(** C5, as amended: [handleSearch] does not look at the role.  With the
    role UNSET, a query that is not blank is sent to the oracle once,
    with that role, and is handed to the ledger exactly when the oracle
    validates it; only a blank query is turned down without a call. *)
Theorem unset_role_is_sent_to_oracle
  (toLowerCase trim : string -> string)
  (tlds sites : list string)
  (onAddHistory : string -> list string -> list string)
  (oracle : string -> UserRole -> OracleReply)
  (explicitQuery : option string) (w : World) :
  let searchQuery := or_else explicitQuery (query w) in
  let w' := snd (handleSearch toLowerCase trim tlds sites UNSET onAddHistory
                   oracle explicitQuery w) in
  (trim searchQuery <> "" ->
   oracleCalls (trace w') = S (oracleCalls (trace w)) /\
   In (OracleCall searchQuery UNSET) (trace w') /\
   (forall r,
       oracle searchQuery UNSET = Resolves r ->
       truthy_value (isValid r) = true ->
       trace w'
       = (trace w ++ [OracleCall searchQuery UNSET; AddHistory searchQuery])%list /\
       history w' = onAddHistory searchQuery (history w)) /\
   ((oracle searchQuery UNSET = Rejects \/ oracle searchQuery UNSET = ResolvesNull \/
     exists r, oracle searchQuery UNSET = Resolves r /\
               truthy_value (isValid r) = false) ->
    trace w' = (trace w ++ [OracleCall searchQuery UNSET])%list /\
    history w' = history w)) /\
  (trim searchQuery = "" -> w' = w).
Proof.
  intros searchQuery w'. split; intros Hquery.
  - apply truthy_true_iff in Hquery.
    pose proof (handleSearch_calls toLowerCase trim tlds sites UNSET onAddHistory
                  oracle explicitQuery w Hquery) as Hc.
    cbv zeta in Hc. fold searchQuery in Hc. fold w' in Hc.
    assert (Hcalls : oracleCalls (trace w') = S (oracleCalls (trace w)) /\
                     In (OracleCall searchQuery UNSET) (trace w')).
    { destruct (oracle searchQuery UNSET) as [| | r];
        [| | destruct (truthy_value (isValid r))];
        destruct Hc as [-> _]; rewrite oracleCalls_app; simpl;
        (split; [lia | apply in_or_app; right; simpl; auto]). }
    destruct Hcalls as [Hn Hin]. split; [exact Hn |]. split; [exact Hin |]. split.
    + intros r Hr Hv. rewrite Hr, Hv in Hc. exact Hc.
    + intros [Hr | [Hr | (r & Hr & Hv)]]; rewrite Hr in Hc;
        [| | rewrite Hv in Hc]; exact Hc.
  - apply truthy_false_iff in Hquery.
    unfold w'. rewrite handleSearch_blank by exact Hquery. reflexivity.
Qed.

(** ** The focus timer *)


Lemma setTimeLeft_twice (a b : Z) (st : TimerState) :
  setTimeLeft a (setTimeLeft b st) = setTimeLeft a st.
Proof. reflexivity. Qed.

(** The input handlers keep the durations in range. *)
Lemma onHoursChange_range (v : option Z) (st : TimerState) :
  0 <= durationHours (onHoursChange v st).
Proof. simpl. lia. Qed.

Lemma onMinutesChange_range (v : option Z) (st : TimerState) :
  0 <= durationMinutes (onMinutesChange v st) <= 59.
Proof. simpl. lia. Qed.

(** What [startTimer] computes is a whole number of minutes. *)
Lemma totalSecondsOf_minutes (st : TimerState) :
  totalSecondsOf st = 60 * (60 * durationHours st + durationMinutes st).
Proof. unfold totalSecondsOf. lia. Qed.

Lemma start_positive (total : Z) (st : TimerState) :
  0 < total ->
  start total st =
  (mkTimerState total (durationHours st) (durationMinutes st) total, [OnStartLock]).
Proof.
  intros H. unfold start. destruct (Z.leb_spec total 0); [lia | reflexivity].
Qed.

Lemma start_nonpositive (total : Z) (st : TimerState) :
  total <= 0 -> start total st = (st, []).
Proof.
  intros H. unfold start. destruct (Z.leb_spec total 0); [reflexivity | lia].
Qed.

(** A second that passes while the clock runs. *)
Lemma tick_locked (st : TimerState) :
  0 < timeLeft st ->
  tick lockedProps st =
  (setTimeLeft (fst (countDown (timeLeft st))) st, snd (countDown (timeLeft st))).
Proof.
  intros H. unfold tick, intervalRuns. simpl.
  destruct (Z.leb_spec (timeLeft st) 0); [lia |]. simpl.
  now destruct (countDown (timeLeft st)).
Qed.

(** Without an interval nothing moves: no time left, paused, or not
    active. *)
Lemma tick_stopped (p : TimerProps) (st : TimerState) :
  timeLeft st <= 0 \/ isPaused p = true \/ isActive p = false ->
  tick p st = (st, []).
Proof.
  intros H. unfold tick, intervalRuns.
  destruct (Z.leb_spec (timeLeft st) 0) as [Hle | Hgt].
  - now rewrite orb_true_r.
  - destruct H as [H | [-> | ->]]; [lia | now rewrite orb_true_r | reflexivity].
Qed.







(** The same run from the form: one minute is sixty ticks. *)
Example one_minute_session :
  let s1 := fst (startTimer (onMinutesChange (Some 1) initialTimer)) in
  timeLeft s1 = 60 /\
  ticks (repeat lockedProps 59) s1 = (setTimeLeft 1 s1, []) /\
  ticks (repeat lockedProps 60) s1 = (setTimeLeft 0 s1, [OnTimerEnd]).
Proof. repeat split. Qed.

(** C9: [startTimer] with a total of zero seconds or less changes
    nothing and calls nothing; the session is in the state it was in,
    [Idle] if it was idle. *)
Theorem start_without_duration_is_noop
  (st : TimerState) (p : TimerProps) (signals : list TimerSignal) :
  totalSecondsOf st <= 0 ->
  startTimer st = (st, []) /\
  sessionState p (fst (startTimer st)) (signals ++ snd (startTimer st))
  = sessionState p st signals.
Proof.
  intros H. unfold startTimer. rewrite start_nonpositive by exact H.
  simpl. rewrite app_nil_r. auto.
Qed.

(** With the durations the form can hold, the total is zero exactly at
    0 hours 0 minutes. *)
Lemma totalSecondsOf_zero_iff (st : TimerState) :
  0 <= durationHours st -> 0 <= durationMinutes st ->
  (totalSecondsOf st <= 0 <-> durationHours st = 0 /\ durationMinutes st = 0).
Proof. unfold totalSecondsOf. lia. Qed.

(** ** Further properties of the two components *)

(** A search that goes through replaces the result set by the classified
    links of the reply, in the order of the reply, and clears the error;
    what was on display before plays no part. *)
Theorem successful_search_replaces_results
  (toLowerCase trim : string -> string)
  (tlds sites : list string) (role : UserRole)
  (onAddHistory : string -> list string -> list string)
  (oracle : string -> UserRole -> OracleReply)
  (explicitQuery : option string) (w : World)
  (r : ValidationResponse) (links : list RawLink) (results : list SearchResult) :
  let searchQuery := or_else explicitQuery (query w) in
  let w' := snd (handleSearch toLowerCase trim tlds sites role onAddHistory
                   oracle explicitQuery w) in
  trim searchQuery <> "" ->
  oracle searchQuery role = Resolves r ->
  truthy_value (isValid r) = true ->
  suggestedLinks r = Some links ->
  mapLinks toLowerCase tlds sites role searchQuery links = Normal results ->
  allResults w' = results /\
  map link results = links /\
  error w' = JNull /\
  loading w' = false /\
  visibleCount w' = 6.
Proof.
  intros searchQuery w' Hquery Hreply Hvalid Hlinks Hmap. unfold w'.
  apply truthy_true_iff in Hquery.
  rewrite handleSearch_run by exact Hquery. cbv zeta. fold searchQuery.
  rewrite Hreply, Hvalid. unfold classifyAll. rewrite Hlinks, Hmap. simpl.
  destruct (mapLinks_Normal toLowerCase tlds sites role searchQuery links results Hmap)
    as [_ Horder].
  auto.
Qed.

(** A URL that has ".gov", ".edu" or ".org" anywhere in it is marked as
    trusted: the test is on substrings, not on the host. *)
Theorem trusted_by_substring
  (toLowerCase : string -> string)
  (tlds sites : list string) (role : UserRole) (q : string) (l : RawLink)
  (u before mark after : string) :
  url l = Some u ->
  toLowerCase u = before ++ mark ++ after ->
  In mark [".gov"; ".edu"; ".org"] ->
  exists r,
    classifyLink toLowerCase tlds sites role q l = Normal r /\ isTrusted r = true.
Proof.
  intros Hu Hsplit Hmark. unfold classifyLink. rewrite Hu.
  eexists. split; [reflexivity |]. cbn [isTrusted]. rewrite Hsplit.
  destruct Hmark as [<- | [<- | [<- | []]]];
    rewrite includes_app; rewrite ?orb_true_r; reflexivity.
Qed.

(** While the clock runs with a time left of at most 2^53 seconds (up
    to there the numbers of the code are exact), a second takes exactly
    one off the time left, and the end is signalled by the second that
    reaches zero and by no other. *)
Theorem locked_tick_takes_one_second (st : TimerState) :
  0 < timeLeft st <= 9007199254740992 ->
  timeLeft (fst (tick lockedProps st)) = timeLeft st - 1 /\
  (snd (tick lockedProps st) = [OnTimerEnd] <-> timeLeft st = 1) /\
  (snd (tick lockedProps st) = [] <-> 1 < timeLeft st).
Proof.
  intros [Hpos _]. rewrite tick_locked by exact Hpos. unfold countDown.
  destruct (Z.leb_spec (timeLeft st) 1); cbn [fst snd timeLeft setTimeLeft].
  - split; [lia |]. split; split; intros H'; try reflexivity; try lia.
    discriminate H'.
  - split; [lia |]. split; split; intros H'; try reflexivity; try lia.
    discriminate H'.
Qed.

(** A paused timer, and one that is not active, do not move. *)
Theorem paused_tick_changes_nothing (p : TimerProps) (st : TimerState) :
  isPaused p = true \/ isActive p = false ->
  tick p st = (st, []).
Proof.
  intros H. apply tick_stopped. right. exact H.
Qed.

Lemma tick_range (p : TimerProps) (st : TimerState) :
  0 <= timeLeft st <= initialTotalSeconds st ->
  0 <= timeLeft (fst (tick p st)) <= timeLeft st /\
  initialTotalSeconds (fst (tick p st)) = initialTotalSeconds st.
Proof.
  intros H. unfold tick. destruct (intervalRuns p st); [| simpl; lia].
  unfold countDown. destruct (Z.leb_spec (timeLeft st) 1); simpl; lia.
Qed.

(** Through any run of seconds, paused or not, the time left stays
    between zero and the total the session was started with. *)
Theorem time_left_stays_in_range
  (total : Z) (st0 : TimerState) (ps : list TimerProps) :
  0 < total ->
  0 <= timeLeft (fst (ticks ps (fst (start total st0)))) <= total /\
  initialTotalSeconds (fst (ticks ps (fst (start total st0)))) = total.
Proof.
  intros Hpos. rewrite start_positive by exact Hpos. cbn [fst].
  assert (Hinv : forall st,
             0 <= timeLeft st <= initialTotalSeconds st ->
             0 <= timeLeft (fst (ticks ps st)) <= initialTotalSeconds st /\
             initialTotalSeconds (fst (ticks ps st)) = initialTotalSeconds st).
  { induction ps as [| p ps IH]; intros st Hst; simpl.
    - split; [exact Hst | reflexivity].
    - destruct (tick_range p st Hst) as [Hr Hi].
      destruct (tick p st) as [st1 s1]. cbn [fst] in Hr, Hi.
      destruct (IH st1 ltac:(lia)) as [Hr' Hi'].
      destruct (ticks ps st1) as [st2 s2]. cbn [fst] in *. lia. }
  apply (Hinv (mkTimerState total (durationHours st0) (durationMinutes st0) total)).
  simpl. lia.
Qed.

(** ** The statements at concrete inputs *)

(** A teacher asking for videos still finds a learning-path link blocked
    when its URL ends with a blocked TLD. *)
Lemma blocklisted_url_is_blocked_witness :
  exists r,
    classifyLink JsString.toLowerCase [".xyz"] ["facebook.com"] TEACHER "youtube video lectures"
      (sampleLink "https://www.YouTube.com/learning/go?to=promo.XYZ") = Normal r /\
    isBlocked r = true /\
    blockReason r = "Restricted by focus filter.".
Proof.
  apply (blocklisted_url_is_blocked JsString.toLowerCase [".xyz"] ["facebook.com"] TEACHER
           "youtube video lectures"
           (sampleLink "https://www.YouTube.com/learning/go?to=promo.XYZ")
           "https://www.YouTube.com/learning/go?to=promo.XYZ").
  - reflexivity.
  - left. exists ".xyz". split; [simpl; auto | reflexivity].
Defined.

(** C2 fails as stated: a student's learning-path link whose URL ends
    with a blocked TLD is blocked. *)
Lemma learning_path_blocked_by_tld :
  includes (toLowerCase "https://www.youtube.com/learning/go?to=promo.xyz")
    "youtube.com/learning" = true /\
  classifyLink JsString.toLowerCase [".xyz"] ["facebook.com"] STUDENT "algebra"
    (sampleLink "https://www.youtube.com/learning/go?to=promo.xyz")
  = Normal (mkSearchResult
              (sampleLink "https://www.youtube.com/learning/go?to=promo.xyz")
              false true "Restricted by focus filter.").
Proof. split; reflexivity. Qed.

(** The same with a blocked site inside the URL. *)
Example learning_path_blocked_by_site :
  classifyLink JsString.toLowerCase [".xyz"] ["facebook.com"] TEACHER "algebra"
    (sampleLink "https://www.youtube.com/learning?share=facebook.com/x")
  = Normal (mkSearchResult
              (sampleLink "https://www.youtube.com/learning?share=facebook.com/x")
              false true "Restricted by focus filter.").
Proof. reflexivity. Qed.

Lemma learning_path_is_unblocked_witness :
  exists r,
    classifyLink JsString.toLowerCase [".xyz"] ["facebook.com"] STUDENT "algebra"
      (sampleLink "https://www.YouTube.com/Learning/algebra") = Normal r /\
    isBlocked r = false /\
    blockReason r = "".
Proof.
  apply (learning_path_is_unblocked JsString.toLowerCase [".xyz"] ["facebook.com"] STUDENT "algebra"
           (sampleLink "https://www.YouTube.com/Learning/algebra")
           "https://www.YouTube.com/Learning/algebra").
  - left. reflexivity.
  - reflexivity.
  - reflexivity.
  - intros tld [<- | []]. reflexivity.
  - intros site [<- | []]. reflexivity.
Defined.

Lemma plain_youtube_is_blocked_witness :
  exists r,
    classifyLink JsString.toLowerCase [".xyz"] ["facebook.com"] TEACHER "linear algebra"
      (sampleLink "https://youtu.be/dQw4w9WgXcQ") = Normal r /\
    isBlocked r = true /\
    blockReason r = "Restricted by focus filter.".
Proof.
  apply (plain_youtube_is_blocked JsString.toLowerCase [".xyz"] ["facebook.com"] TEACHER "linear algebra"
           (sampleLink "https://youtu.be/dQw4w9WgXcQ")
           "https://youtu.be/dQw4w9WgXcQ").
  - reflexivity.
  - right. reflexivity.
  - reflexivity.
  - reflexivity.
  - reflexivity.
Defined.

(** The exception at work: the same link is open to a teacher who asks
    for videos, and closed to a researcher who does. *)
Example youtube_exception_by_role :
  classifyLink JsString.toLowerCase [".xyz"] ["facebook.com"] TEACHER "Algebra VIDEO"
    (sampleLink "https://youtu.be/dQw4w9WgXcQ")
  = Normal (mkSearchResult (sampleLink "https://youtu.be/dQw4w9WgXcQ") false false "")
  /\
  classifyLink JsString.toLowerCase [".xyz"] ["facebook.com"] RESEARCHER "Algebra VIDEO"
    (sampleLink "https://youtu.be/dQw4w9WgXcQ")
  = Normal (mkSearchResult (sampleLink "https://youtu.be/dQw4w9WgXcQ") false true
              "Restricted by focus filter.").
Proof. split; reflexivity. Qed.

(** C4 fails as stated: a valid reply without [suggestedLinks] empties
    the result set on display and puts the query into the ledger; what is
    shown is the generic failure message. *)
Lemma reply_without_links_changes_state :
  allResults (sampleWorld "algebra") = [sampleResult] /\
  history (sampleWorld "algebra") = ["calculus"] /\
  asciiSearch [".xyz"] ["facebook.com"] STUDENT sampleAddHistory
    (replyValid None) None (sampleWorld "algebra")
  = (Normal tt,
     mkWorld "algebra" false [] 6 (JString "Search failed. Please try again later.")
       false ["algebra"; "calculus"]
       [OracleCall "algebra" STUDENT; AddHistory "algebra"]).
Proof. repeat split. Qed.

(** The three kinds of reply without links, run: a valid one, one that
    turns the query down, and [null]. *)
Lemma reply_without_links_outcome_witness :
  (error (snd (asciiSearch [".xyz"] ["facebook.com"] STUDENT sampleAddHistory
                 (replyValid None) None (sampleWorld "algebra")))
   = JString "Search failed. Please try again later." /\
   history (snd (asciiSearch [".xyz"] ["facebook.com"] STUDENT sampleAddHistory
                   (replyValid None) None (sampleWorld "algebra")))
   = ["algebra"; "calculus"]) /\
  (error (snd (asciiSearch [".xyz"] ["facebook.com"] STUDENT sampleAddHistory
                 (fun _ _ => Resolves (mkValidationResponse (JBool false)
                                         (JString "Off topic.") None))
                 None (sampleWorld "algebra")))
   = JString "Off topic." /\
   history (snd (asciiSearch [".xyz"] ["facebook.com"] STUDENT sampleAddHistory
                   (fun _ _ => Resolves (mkValidationResponse (JBool false)
                                           (JString "Off topic.") None))
                   None (sampleWorld "algebra")))
   = ["calculus"]) /\
  (error (snd (asciiSearch [".xyz"] ["facebook.com"] STUDENT sampleAddHistory
                 replyNull None (sampleWorld "algebra")))
   = JString "Search failed. Please try again later." /\
   allResults (snd (asciiSearch [".xyz"] ["facebook.com"] STUDENT sampleAddHistory
                      replyNull None (sampleWorld "algebra")))
   = []).
Proof.
  split; [| split].
  - destruct (reply_without_links_outcome JsString.toLowerCase JsString.trim
                [".xyz"] ["facebook.com"] STUDENT sampleAddHistory
                (replyValid None) None (sampleWorld "algebra") eq_refl)
      as [_ H].
    destruct (H _ eq_refl eq_refl) as (_ & _ & Hvalid & _).
    destruct (Hvalid eq_refl) as (He & Hh & _). split; [exact He | exact Hh].
  - destruct (reply_without_links_outcome JsString.toLowerCase JsString.trim
                [".xyz"] ["facebook.com"] STUDENT sampleAddHistory
                (fun _ _ => Resolves (mkValidationResponse (JBool false)
                                        (JString "Off topic.") None))
                None (sampleWorld "algebra") eq_refl)
      as [_ H].
    destruct (H _ eq_refl eq_refl) as (_ & _ & _ & Hinvalid).
    destruct (Hinvalid eq_refl) as (He & Hh & _). split; [exact He | exact Hh].
  - destruct (reply_without_links_outcome JsString.toLowerCase JsString.trim
                [".xyz"] ["facebook.com"] STUDENT sampleAddHistory
                replyNull None (sampleWorld "algebra") eq_refl)
      as [H _].
    destruct (H eq_refl) as (Ha & He & _). split; [exact He | exact Ha].
Defined.

(** C5 fails as stated: with the role UNSET the oracle is asked and the
    ledger is written. *)
Lemma unset_role_search_reaches_oracle :
  history (sampleWorld "algebra") = ["calculus"] /\
  asciiSearch [".xyz"] ["facebook.com"] UNSET sampleAddHistory
    (replyValid (Some [])) None (sampleWorld "algebra")
  = (Normal tt,
     mkWorld "algebra" false [] 6 JNull false ["algebra"; "calculus"]
       [OracleCall "algebra" UNSET; AddHistory "algebra"]).
Proof. split; reflexivity. Qed.

Lemma unset_role_is_sent_to_oracle_witness :
  trace (snd (asciiSearch [".xyz"] ["facebook.com"] UNSET sampleAddHistory
                (replyValid (Some [])) None (sampleWorld "algebra")))
  = [OracleCall "algebra" UNSET; AddHistory "algebra"] /\
  history (snd (asciiSearch [".xyz"] ["facebook.com"] UNSET sampleAddHistory
                  (replyValid (Some [])) None (sampleWorld "algebra")))
  = ["algebra"; "calculus"] /\
  snd (asciiSearch [".xyz"] ["facebook.com"] UNSET sampleAddHistory
         (replyValid (Some [])) (Some "  ") (sampleWorld "algebra"))
  = sampleWorld "algebra".
Proof.
  destruct (unset_role_is_sent_to_oracle JsString.toLowerCase JsString.trim
              [".xyz"] ["facebook.com"] sampleAddHistory
              (replyValid (Some [])) None (sampleWorld "algebra"))
    as [Hsent _].
  destruct (Hsent ltac:(discriminate)) as (_ & _ & Hvalid & _).
  destruct (Hvalid _ eq_refl eq_refl) as [Ht Hh].
  destruct (unset_role_is_sent_to_oracle JsString.toLowerCase JsString.trim
              [".xyz"] ["facebook.com"] sampleAddHistory
              (replyValid (Some [])) (Some "  ") (sampleWorld "algebra"))
    as [_ Hblank].
  split; [exact Ht |]. split; [exact Hh | exact (Hblank eq_refl)].
Defined.

Lemma blank_query_is_rejected_locally_witness :
  asciiSearch [".xyz"] ["facebook.com"] STUDENT sampleAddHistory
    (replyValid (Some [])) (Some "  ") (sampleWorld "algebra")
  = (Normal tt, sampleWorld "algebra") /\
  oracleCalls (trace (snd (asciiSearch [".xyz"] ["facebook.com"] STUDENT
                             sampleAddHistory (replyValid (Some [])) (Some "  ")
                             (sampleWorld "algebra"))))
  = oracleCalls (trace (sampleWorld "algebra")) /\
  trace (snd (asciiSearch [".xyz"] ["facebook.com"] STUDENT
                sampleAddHistory (replyValid (Some [])) (Some "  ")
                (sampleWorld "algebra")))
  = trace (sampleWorld "algebra") /\
  history (snd (asciiSearch [".xyz"] ["facebook.com"] STUDENT
                  sampleAddHistory (replyValid (Some [])) (Some "  ")
                  (sampleWorld "algebra")))
  = history (sampleWorld "algebra").
Proof.
  apply (blank_query_is_rejected_locally JsString.toLowerCase JsString.trim
           [".xyz"] ["facebook.com"] STUDENT
           sampleAddHistory (replyValid (Some [])) (Some "  ")
           (sampleWorld "algebra")).
  reflexivity.
Defined.

(** A query the oracle turns down and a query it validates, run: the
    first shows the reason and writes nothing, the second is written
    once. *)
Lemma oracle_rejection_keeps_history_witness :
  (error (snd (asciiSearch [".xyz"] ["facebook.com"] STUDENT sampleAddHistory
                 (replyInvalid "Off topic.") (Some "cat memes")
                 (sampleWorld "algebra")))
   = JString "Off topic." /\
   history (snd (asciiSearch [".xyz"] ["facebook.com"] STUDENT sampleAddHistory
                   (replyInvalid "Off topic.") (Some "cat memes")
                   (sampleWorld "algebra")))
   = ["calculus"] /\
   historyCalls
     (trace (snd (asciiSearch [".xyz"] ["facebook.com"] STUDENT sampleAddHistory
                    (replyInvalid "Off topic.") (Some "cat memes")
                    (sampleWorld "algebra"))))
   = 0%nat) /\
  (history (snd (asciiSearch [".xyz"] ["facebook.com"] STUDENT sampleAddHistory
                   (replyValid (Some [])) (Some "group theory")
                   (sampleWorld "algebra")))
   = ["group theory"; "calculus"] /\
   historyCalls
     (trace (snd (asciiSearch [".xyz"] ["facebook.com"] STUDENT sampleAddHistory
                    (replyValid (Some [])) (Some "group theory")
                    (sampleWorld "algebra"))))
   = 1%nat).
Proof.
  split.
  - destruct (oracle_rejection_keeps_history JsString.toLowerCase JsString.trim
                [".xyz"] ["facebook.com"] STUDENT sampleAddHistory
                (replyInvalid "Off topic.") (Some "cat memes")
                (sampleWorld "algebra"))
      as (Hrejected & _ & _).
    destruct (Hrejected _ ltac:(discriminate) eq_refl eq_refl)
      as (He & Hh & _ & Hn).
    split; [exact He |]. split; [exact Hh | exact Hn].
  - destruct (oracle_rejection_keeps_history JsString.toLowerCase JsString.trim
                [".xyz"] ["facebook.com"] STUDENT sampleAddHistory
                (replyValid (Some [])) (Some "group theory")
                (sampleWorld "algebra"))
      as (_ & Hvalidated & _).
    destruct (Hvalidated _ ltac:(discriminate) eq_refl eq_refl)
      as (Hh & _ & Hn).
    split; [exact Hh | exact Hn].
Defined.

(** An oracle that turns the query down: its reason is shown, the ledger
    stays. *)
Example oracle_rejection_run :
  asciiSearch [".xyz"] ["facebook.com"] STUDENT sampleAddHistory
    (replyInvalid "Off topic.") (Some "cat memes") (sampleWorld "algebra")
  = (Normal tt,
     mkWorld "algebra" false [] 6 (JString "Off topic.") false ["calculus"]
       [OracleCall "cat memes" STUDENT]).
Proof. reflexivity. Qed.

(** An oracle that cannot be reached. *)
Example oracle_failure_run :
  asciiSearch [".xyz"] ["facebook.com"] STUDENT sampleAddHistory
    replyFails None (sampleWorld "algebra")
  = (Normal tt,
     mkWorld "algebra" false [] 6 (JString "Search failed. Please try again later.")
       false ["calculus"] [OracleCall "algebra" STUDENT]).
Proof. reflexivity. Qed.

(** A validated query with blanks around it, run: the oracle and the
    ledger get it with its blanks. *)
Lemma raw_query_is_sent_and_stored_witness :
  trace (snd (asciiSearch [".xyz"] ["facebook.com"] STUDENT sampleAddHistory
                (replyValid (Some [])) (Some " algebra ") (sampleWorld "")))
  = [OracleCall " algebra " STUDENT; AddHistory " algebra "] /\
  history (snd (asciiSearch [".xyz"] ["facebook.com"] STUDENT sampleAddHistory
                  (replyValid (Some [])) (Some " algebra ") (sampleWorld "")))
  = [" algebra "; "calculus"].
Proof.
  destruct (raw_query_is_sent_and_stored JsString.toLowerCase JsString.trim
              [".xyz"] ["facebook.com"] STUDENT sampleAddHistory
              (replyValid (Some [])) (Some " algebra ") (sampleWorld "")
              ltac:(discriminate))
    as (calls & Ht & _ & Hvalid).
  destruct (Hvalid _ eq_refl eq_refl) as [Hcalls Hh].
  rewrite Hcalls in Ht. split; [exact Ht | exact Hh].
Defined.

(** Two searches that differ in the surrounding blanks only leave two
    entries. *)
Example surrounding_blanks_make_two_entries :
  history
    (handleSearches JsString.toLowerCase JsString.trim
       [".xyz"] ["facebook.com"] STUDENT sampleAddHistory
       [(replyValid (Some []), Some "algebra");
        (replyValid (Some []), Some " algebra ")]
       (sampleWorld ""))
  = [" algebra "; "algebra"; "calculus"]
  /\
  trace
    (handleSearches JsString.toLowerCase JsString.trim
       [".xyz"] ["facebook.com"] STUDENT sampleAddHistory
       [(replyValid (Some []), Some "algebra");
        (replyValid (Some []), Some " algebra ")]
       (sampleWorld ""))
  = [OracleCall "algebra" STUDENT; AddHistory "algebra";
     OracleCall " algebra " STUDENT; AddHistory " algebra "].
Proof. split; reflexivity. Qed.

Lemma start_without_duration_is_noop_witness :
  startTimer (onMinutesChange (Some 0) initialTimer)
  = (onMinutesChange (Some 0) initialTimer, []) /\
  sessionState idleProps (fst (startTimer (onMinutesChange (Some 0) initialTimer)))
    ([] ++ snd (startTimer (onMinutesChange (Some 0) initialTimer)))
  = sessionState idleProps (onMinutesChange (Some 0) initialTimer) [].
Proof.
  apply (start_without_duration_is_noop
           (onMinutesChange (Some 0) initialTimer) idleProps []).
  vm_compute. discriminate.
Defined.

Example idle_before_and_after_rejected_start :
  sessionState idleProps (onMinutesChange (Some 0) initialTimer) [] = Idle /\
  sessionState idleProps
    (fst (startTimer (onMinutesChange (Some 0) initialTimer))) [] = Idle.
Proof. split; reflexivity. Qed.

Lemma successful_search_replaces_results_witness :
  allResults (snd (asciiSearch [".xyz"] ["facebook.com"] STUDENT sampleAddHistory
                     (replyValid (Some [sampleLink "https://casino.xyz";
                                        sampleLink "https://ocw.mit.edu/"]))
                     None (sampleWorld "algebra")))
  = [mkSearchResult (sampleLink "https://casino.xyz") false true
       "Restricted by focus filter.";
     mkSearchResult (sampleLink "https://ocw.mit.edu/") true false ""] /\
  error (snd (asciiSearch [".xyz"] ["facebook.com"] STUDENT sampleAddHistory
                (replyValid (Some [sampleLink "https://casino.xyz";
                                   sampleLink "https://ocw.mit.edu/"]))
                None (sampleWorld "algebra"))) = JNull.
Proof.
  destruct (successful_search_replaces_results JsString.toLowerCase JsString.trim
              [".xyz"] ["facebook.com"] STUDENT sampleAddHistory
              (replyValid (Some [sampleLink "https://casino.xyz";
                                 sampleLink "https://ocw.mit.edu/"]))
              None (sampleWorld "algebra")
              (mkValidationResponse (JBool true) (JString "Relevant.")
                 (Some [sampleLink "https://casino.xyz";
                        sampleLink "https://ocw.mit.edu/"]))
              [sampleLink "https://casino.xyz"; sampleLink "https://ocw.mit.edu/"]
              [mkSearchResult (sampleLink "https://casino.xyz") false true
                 "Restricted by focus filter.";
               mkSearchResult (sampleLink "https://ocw.mit.edu/") true false ""]
              ltac:(discriminate) eq_refl eq_refl eq_refl eq_refl)
    as (Hresults & _ & Herror & _).
  split; [exact Hresults | exact Herror].
Defined.

Lemma trusted_by_substring_witness :
  exists r,
    classifyLink JsString.toLowerCase [".xyz"] ["facebook.com"] STUDENT "algebra"
      (sampleLink "https://ads.example.com/?ref=.ORG") = Normal r /\
    isTrusted r = true.
Proof.
  apply (trusted_by_substring JsString.toLowerCase [".xyz"] ["facebook.com"] STUDENT "algebra"
           (sampleLink "https://ads.example.com/?ref=.ORG")
           "https://ads.example.com/?ref=.ORG"
           "https://ads.example.com/?ref=" ".org" "").
  - reflexivity.
  - reflexivity.
  - simpl. auto.
Defined.

Lemma locked_tick_takes_one_second_witness :
  timeLeft (fst (tick lockedProps (mkTimerState 1 0 1 60))) = 1 - 1 /\
  (snd (tick lockedProps (mkTimerState 1 0 1 60)) = [OnTimerEnd] <-> 1 = 1) /\
  (snd (tick lockedProps (mkTimerState 1 0 1 60)) = [] <-> 1 < 1).
Proof.
  apply (locked_tick_takes_one_second (mkTimerState 1 0 1 60)).
  simpl. lia.
Defined.

Lemma paused_tick_changes_nothing_witness :
  tick (mkTimerProps true true) (mkTimerState 42 0 1 60)
  = (mkTimerState 42 0 1 60, []).
Proof.
  apply (paused_tick_changes_nothing (mkTimerProps true true) (mkTimerState 42 0 1 60)).
  left. reflexivity.
Defined.

Lemma time_left_stays_in_range_witness :
  0 <= timeLeft (fst (ticks [lockedProps; mkTimerProps true true; lockedProps]
                        (fst (start 60 initialTimer)))) <= 60 /\
  initialTotalSeconds (fst (ticks [lockedProps; mkTimerProps true true; lockedProps]
                              (fst (start 60 initialTimer)))) = 60.
Proof.
  apply (time_left_stays_in_range 60 initialTimer
           [lockedProps; mkTimerProps true true; lockedProps]).
  reflexivity.
Defined.

(** ** More on the search component *)

Lemma includes_empty (s : string) : includes s "" = true.
Proof.
  rewrite includes_unfold. unfold startsWith. now destruct s.
Qed.

Lemma slice_from_start {A : Type} (l : list A) (e : Z) :
  0 <= e -> slice l 0 e = firstn (Z.to_nat e) l.
Proof.
  intros He. unfold slice.
  destruct (Z.ltb_spec 0 0) as [? | _]; [lia |].
  destruct (Z.ltb_spec e 0) as [? | _]; [lia |].
  rewrite (Z.min_l 0) by lia. change (Z.to_nat 0) with 0%nat. cbn [skipn].
  rewrite Z.sub_0_r.
  destruct (Z.le_ge_cases e (Z.of_nat (length l))) as [Hle | Hge].
  - now rewrite Z.min_l by exact Hle.
  - rewrite Z.min_r by exact Hge. rewrite Nat2Z.id.
    rewrite !firstn_all2; [reflexivity | lia | lia].
Qed.

Lemma firstn_whole_iff {A : Type} (n : nat) (l : list A) :
  firstn n l = l <-> (length l <= n)%nat.
Proof.
  split.
  - intros H. apply (f_equal (@length A)) in H.
    rewrite length_firstn in H. lia.
  - apply firstn_all2.
Qed.

Lemma startsWith_split (s p : string) :
  startsWith s p = true -> exists rest, s = p ++ rest.
Proof.
  unfold startsWith. revert s. induction p as [| c p IH]; intros s H.
  - exists s. reflexivity.
  - destruct s as [| d s]; simpl in H; [discriminate |].
    destruct (ascii_dec c d) as [-> | _]; [| discriminate].
    destruct (IH s H) as [rest ->]. exists rest. reflexivity.
Qed.

(** A string includes another exactly when it has it somewhere inside. *)
Lemma includes_split (s sub : string) :
  includes s sub = true <-> exists before after, s = before ++ sub ++ after.
Proof.
  split.
  - induction s as [| c s IH]; rewrite includes_unfold; intros H;
      apply orb_true_iff in H; destruct H as [H | H]; try discriminate.
    + apply startsWith_split in H. destruct H as [rest ->]. now exists "", rest.
    + apply startsWith_split in H. destruct H as [rest ->]. now exists "", rest.
    + destruct (IH H) as (before & after & ->).
      now exists (String c before), after.
  - intros (before & after & ->). apply includes_app.
Qed.

(** [handleSearch] never changes the text of the search box, also when it
    is started from an entry of the history; a search of a query that is
    not blank closes the history panel, puts the paging back to six and
    ends with the spinner off. *)
Theorem handleSearch_keeps_search_box
  (toLowerCase trim : string -> string)
  (tlds sites : list string) (role : UserRole)
  (onAddHistory : string -> list string -> list string)
  (oracle : string -> UserRole -> OracleReply)
  (explicitQuery : option string) (w : World) :
  let w' := snd (handleSearch toLowerCase trim tlds sites role onAddHistory
                   oracle explicitQuery w) in
  query w' = query w /\
  (trim (or_else explicitQuery (query w)) <> "" ->
   showHistoryView w' = false /\ visibleCount w' = 6 /\ loading w' = false).
Proof.
  intros w'. unfold w'.
  destruct (truthy (trim (or_else explicitQuery (query w)))) eqn:Hq.
  - rewrite handleSearch_run by exact Hq. cbv zeta.
    assert (Hbox : (if truthy_opt explicitQuery then query w
                    else or_else explicitQuery (query w)) = query w).
    { destruct explicitQuery as [s |]; simpl; [| reflexivity].
      now destruct (truthy s). }
    rewrite Hbox.
    destruct (oracle (or_else explicitQuery (query w)) role) as [| | r];
      [simpl; auto | simpl; auto |].
    destruct (truthy_value (isValid r)); [| simpl; auto].
    destruct (classifyAll toLowerCase tlds sites role
                (or_else explicitQuery (query w)) r);
      simpl; auto.
  - rewrite handleSearch_blank by exact Hq. simpl. split; [reflexivity |].
    intros Hne. apply truthy_true_iff in Hne. congruence.
Qed.

(** One link without [url] fails the whole search: none of the links of
    the reply is shown, the generic message is, and the query is in the
    ledger all the same. *)
Theorem link_without_url_fails_search
  (toLowerCase trim : string -> string)
  (tlds sites : list string) (role : UserRole)
  (onAddHistory : string -> list string -> list string)
  (oracle : string -> UserRole -> OracleReply)
  (explicitQuery : option string) (w : World)
  (r : ValidationResponse) (links : list RawLink) (bad : RawLink) :
  let searchQuery := or_else explicitQuery (query w) in
  let w' := snd (handleSearch toLowerCase trim tlds sites role onAddHistory
                   oracle explicitQuery w) in
  trim searchQuery <> "" ->
  oracle searchQuery role = Resolves r ->
  truthy_value (isValid r) = true ->
  suggestedLinks r = Some links ->
  In bad links ->
  url bad = None ->
  allResults w' = [] /\
  error w' = JString "Search failed. Please try again later." /\
  history w' = onAddHistory searchQuery (history w) /\
  loading w' = false.
Proof.
  intros searchQuery w' Hquery Hreply Hvalid Hlinks Hin Hbad. unfold w'.
  apply truthy_true_iff in Hquery.
  rewrite handleSearch_run by exact Hquery. cbv zeta. fold searchQuery.
  rewrite Hreply, Hvalid. unfold classifyAll. rewrite Hlinks.
  assert (Hthrow : mapLinks toLowerCase tlds sites role searchQuery links
                   = Throw TypeError).
  { apply mapLinks_Throw_iff. exists bad. auto. }
  rewrite Hthrow. simpl. auto.
Qed.

(** When the oracle cannot be reached, the generic message is shown, the
    result set is empty, the ledger is as it was and the oracle has been
    asked once. *)
Theorem oracle_failure_outcome
  (toLowerCase trim : string -> string)
  (tlds sites : list string) (role : UserRole)
  (onAddHistory : string -> list string -> list string)
  (oracle : string -> UserRole -> OracleReply)
  (explicitQuery : option string) (w : World) :
  let searchQuery := or_else explicitQuery (query w) in
  let w' := snd (handleSearch toLowerCase trim tlds sites role onAddHistory
                   oracle explicitQuery w) in
  trim searchQuery <> "" ->
  oracle searchQuery role = Rejects ->
  error w' = JString "Search failed. Please try again later." /\
  allResults w' = [] /\
  history w' = history w /\
  trace w' = (trace w ++ [OracleCall searchQuery role])%list /\
  loading w' = false.
Proof.
  intros searchQuery w' Hquery Hreply. unfold w'.
  apply truthy_true_iff in Hquery.
  rewrite handleSearch_run by exact Hquery. cbv zeta. fold searchQuery.
  rewrite Hreply. simpl. auto.
Qed.

(** The filter of the history panel shows exactly the entries whose
    lower-case form has the lower-case form of the filter text somewhere
    inside: an entry without it is left out, an entry with it is kept.
    The entries keep their order and their repetitions, the letter case of
    the filter plays no part, and an empty filter shows the whole
    history. *)
Theorem history_filter_ignores_case
  (toLowerCase : string -> string) (history : list string) :
  (forall f item,
      In item (filteredHistory toLowerCase history f) <->
      In item history /\
      exists before after,
        toLowerCase item = before ++ toLowerCase f ++ after) /\
  (forall f item,
      In item history ->
      (forall before after,
          toLowerCase item <> before ++ toLowerCase f ++ after) ->
      ~ In item (filteredHistory toLowerCase history f)) /\
  (forall f earlier later,
      history = (earlier ++ later)%list ->
      filteredHistory toLowerCase history f =
      (filteredHistory toLowerCase earlier f ++
       filteredHistory toLowerCase later f)%list) /\
  (forall f item rest,
      filteredHistory toLowerCase (item :: rest) f =
      if includes (toLowerCase item) (toLowerCase f)
      then item :: filteredHistory toLowerCase rest f
      else filteredHistory toLowerCase rest f) /\
  (forall f f',
      toLowerCase f = toLowerCase f' ->
      filteredHistory toLowerCase history f =
      filteredHistory toLowerCase history f') /\
  (toLowerCase "" = "" -> filteredHistory toLowerCase history "" = history).
Proof.
  assert (Hexact : forall f item,
      In item (filteredHistory toLowerCase history f) <->
      In item history /\
      exists before after,
        toLowerCase item = before ++ toLowerCase f ++ after).
  { intros f item. unfold filteredHistory. rewrite filter_In.
    now rewrite includes_split. }
  split; [exact Hexact |]. split; [| split; [| split; [| split]]].
  - intros f item _ Hnone Hshown. apply Hexact in Hshown.
    destruct Hshown as (_ & before & after & Hsplit).
    exact (Hnone before after Hsplit).
  - intros f earlier later ->. unfold filteredHistory. apply filter_app.
  - intros f item rest. reflexivity.
  - intros f f' Hcase. unfold filteredHistory. now rewrite Hcase.
  - intros Hempty. unfold filteredHistory. rewrite Hempty. clear Hexact.
    induction history as [| h t IH]; simpl.
    + reflexivity.
    + rewrite includes_empty. f_equal. exact IH.
Qed.

(** The quick-access row shows the first four entries; the label "+N
    more" is there exactly when entries are left out, N being their
    number. *)
Theorem recent_row_and_more_label (history : list string) :
  recentHistory history = firstn 4 history /\
  match moreHistory history with
  | Some n =>
      0 < n /\
      Z.of_nat (length (recentHistory history)) + n = Z.of_nat (length history)
  | None => recentHistory history = history
  end.
Proof.
  unfold recentHistory. rewrite slice_from_start by lia.
  change (Z.to_nat 4) with 4%nat. split; [reflexivity |].
  unfold moreHistory.
  destruct (Z.gtb_spec (Z.of_nat (length history)) 4) as [Hgt | Hle].
  - rewrite length_firstn. lia.
  - apply firstn_all2. lia.
Qed.

Lemma loadMoreTimes_spec (k : nat) (w : World) :
  visibleCount (loadMoreTimes k w) = visibleCount w + 6 * Z.of_nat k /\
  allResults (loadMoreTimes k w) = allResults w.
Proof.
  revert w. induction k as [| k IH]; intros w.
  - simpl. split; [lia | reflexivity].
  - cbn [loadMoreTimes]. destruct (IH (snd (loadMore w))) as [Hv Ha].
    rewrite Hv, Ha.
    change (visibleCount (snd (loadMore w))) with (visibleCount w + 6).
    change (allResults (snd (loadMore w))) with (allResults w).
    split; [lia | reflexivity].
Qed.

(** Paging: after [k] clicks on Load More the first [visibleCount + 6k]
    results are on display, and the button is gone exactly when all
    results are. *)
Theorem load_more_pages_through_results (k : nat) (w : World) :
  0 <= visibleCount w ->
  visibleResults (loadMoreTimes k w)
  = firstn (Z.to_nat (visibleCount w + 6 * Z.of_nat k)) (allResults w) /\
  (loadMoreShown (loadMoreTimes k w) = false <->
   visibleResults (loadMoreTimes k w) = allResults w).
Proof.
  intros Hv. destruct (loadMoreTimes_spec k w) as [Hcount Hall].
  unfold visibleResults, loadMoreShown. rewrite Hcount, Hall.
  rewrite slice_from_start by lia. split; [reflexivity |].
  rewrite firstn_whole_iff.
  destruct (Z.gtb_spec (Z.of_nat (length (allResults w)))
              (visibleCount w + 6 * Z.of_nat k)); split; intros H';
    try discriminate; try reflexivity; lia.
Qed.

(** ** The clock face *)

Example formatTime_samples :
  formatTime 0 = "00:00" /\ formatTime 59 = "00:59" /\ formatTime 1500 = "25:00" /\
  formatTime 3599 = "59:59" /\ formatTime 3600 = "01:00:00" /\
  formatTime 3725 = "01:02:05" /\ formatTime 360000 = "100:00:00".
Proof. repeat split. Qed.

Example padStart_samples :
  padStart "7" 5 "ab" = "abab7" /\ padStart "123" 2 "0" = "123" /\
  padStart "x" 3 "" = "x".
Proof. repeat split. Qed.

Lemma to_int_proper (n : Z) : Z.to_int n <> Pos Nil /\ Z.to_int n <> Neg Nil.
Proof.
  destruct n as [| p | p]; simpl; split; try discriminate;
    intros [= H]; now apply (DecimalPos.Unsigned.to_uint_nonnil p).
Qed.

(** Reading back what [toString] printed gives the number. *)
Lemma toString_read_back (n : Z) :
  option_map Z.of_int (NilZero.int_of_string (toString n)) = Some n.
Proof.
  unfold toString. destruct (to_int_proper n) as [Hp Hn].
  rewrite NilZero.isi by assumption. simpl. now rewrite DecimalZ.of_to.
Qed.

Lemma one_character_reads_below_ten (c : ascii) (n : Z) :
  option_map Z.of_int (NilZero.int_of_string (String c "")) = Some n -> n < 10.
Proof.
  destruct c as [[] [] [] [] [] [] [] []]; vm_compute; intros [= <-]; reflexivity.
Qed.

(** A number from ten on prints with two characters at least. *)
Lemma toString_length (n : Z) : 10 <= n -> (2 <= String.length (toString n))%nat.
Proof.
  intros Hn. pose proof (toString_read_back n) as Hread.
  destruct (toString n) as [| c [| c' r]]; simpl.
  - discriminate Hread.
  - apply one_character_reads_below_ten in Hread. lia.
  - lia.
Qed.

Lemma padStart_long_enough (s : string) (n : nat) (pad : string) :
  (n <= String.length s)%nat -> padStart s n pad = s.
Proof.
  intros H. unfold padStart.
  replace (n - String.length s)%nat with 0%nat by lia. reflexivity.
Qed.

(** Below a hundred, two digits. *)
Lemma pad2_digits (n : Z) :
  0 <= n < 100 ->
  padStart (toString n) 2 "0" = String (digit (n / 10)) (String (digit (n mod 10)) "").
Proof.
  intros Hn.
  assert (Hall :
    forallb
      (fun k =>
         String.eqb (padStart (toString (Z.of_nat k)) 2 "0")
           (String (digit (Z.of_nat k / 10))
              (String (digit (Z.of_nat k mod 10)) "")))
      (seq 0 100) = true) by (vm_compute; reflexivity).
  rewrite forallb_forall in Hall.
  specialize (Hall (Z.to_nat n)). rewrite Z2Nat.id in Hall by lia.
  apply String.eqb_eq, Hall, in_seq. lia.
Qed.

Lemma digit_inj (a b : Z) :
  0 <= a < 10 -> 0 <= b < 10 -> digit a = digit b -> a = b.
Proof.
  intros Ha Hb H. unfold digit in H.
  apply (f_equal nat_of_ascii) in H.
  rewrite !nat_ascii_embedding in H by lia. lia.
Qed.

Lemma pad2_inj_below_100 (a b : Z) :
  0 <= a < 100 -> 0 <= b < 100 ->
  padStart (toString a) 2 "0" = padStart (toString b) 2 "0" -> a = b.
Proof.
  intros Ha Hb H. rewrite !pad2_digits in H by assumption.
  injection H as H1 H0.
  apply digit_inj in H1; [| split; [apply Z.div_pos; lia | apply Z.div_lt_upper_bound; lia] ..].
  apply digit_inj in H0; [| apply Z.mod_pos_bound; lia ..].
  rewrite (Z.div_mod a 10), (Z.div_mod b 10) by lia. lia.
Qed.

(** The padded number reads back as the number, whatever its size. *)
Lemma pad2_read_back (n : Z) :
  0 <= n ->
  option_map Z.of_int (NilZero.int_of_string (padStart (toString n) 2 "0")) = Some n.
Proof.
  intros Hn. destruct (Z.lt_ge_cases n 10) as [Hsmall | Hbig].
  - assert (Hall :
      forallb
        (fun k =>
           match option_map Z.of_int
                   (NilZero.int_of_string (padStart (toString (Z.of_nat k)) 2 "0"))
           with
           | Some m => Z.eqb m (Z.of_nat k)
           | None => false
           end)
        (seq 0 10) = true) by (vm_compute; reflexivity).
    rewrite forallb_forall in Hall.
    specialize (Hall (Z.to_nat n)). rewrite Z2Nat.id in Hall by lia.
    destruct (option_map Z.of_int
                (NilZero.int_of_string (padStart (toString n) 2 "0"))) as [m |].
    + f_equal. apply Z.eqb_eq, Hall, in_seq. lia.
    + discriminate Hall. apply in_seq. lia.
  - rewrite padStart_long_enough by (apply toString_length; exact Hbig).
    apply toString_read_back.
Qed.

Lemma pad2_inj (a b : Z) :
  0 <= a -> 0 <= b ->
  padStart (toString a) 2 "0" = padStart (toString b) 2 "0" -> a = b.
Proof.
  intros Ha Hb H.
  pose proof (pad2_read_back a Ha) as Ra. pose proof (pad2_read_back b Hb) as Rb.
  rewrite H in Ra. congruence.
Qed.

Lemma pad2_length_at_least (n : Z) :
  0 <= n -> (2 <= String.length (padStart (toString n) 2 "0"))%nat.
Proof.
  intros Hn. destruct (Z.lt_ge_cases n 100) as [Hsmall | Hbig].
  - rewrite pad2_digits by lia. simpl. lia.
  - rewrite padStart_long_enough by (apply toString_length; lia).
    apply toString_length. lia.
Qed.

Lemma string_length_app (a b : string) :
  String.length (a ++ b) = (String.length a + String.length b)%nat.
Proof. induction a as [| c a IH]; simpl; [reflexivity | now rewrite IH]. Qed.

(** Two splits of one string at the same place are the same split. *)
Lemma string_app_inj (a b c d : string) :
  String.length a = String.length c -> a ++ b = c ++ d -> a = c /\ b = d.
Proof.
  revert c. induction a as [| x a IH]; intros [| y c] Hlen H; simpl in *;
    try discriminate.
  - auto.
  - injection H as -> H. destruct (IH c) as [-> ->]; [lia | exact H | auto].
Qed.

Lemma string_app_inj_tail (a b c d : string) :
  String.length b = String.length d -> a ++ b = c ++ d -> a = c /\ b = d.
Proof.
  intros Hlen H. apply string_app_inj; [| exact H].
  apply (f_equal String.length) in H. rewrite !string_length_app in H. lia.
Qed.

(** The time split into hours, minutes and seconds, as [formatTime]
    does it. *)
Lemma formatTime_parts (t : Z) :
  0 <= t ->
  0 <= t / 3600 /\
  0 <= Z.rem t 3600 / 60 < 60 /\
  0 <= Z.rem t 60 < 60 /\
  t = 3600 * (t / 3600) + 60 * (Z.rem t 3600 / 60) + Z.rem t 60.
Proof.
  intros Ht. rewrite !Z.rem_mod_nonneg by lia.
  pose proof (Z.div_mod t 3600 ltac:(lia)) as H1.
  pose proof (Z.mod_pos_bound t 3600 ltac:(lia)) as B1.
  pose proof (Z.div_mod (t mod 3600) 60 ltac:(lia)) as H2.
  pose proof (Z.mod_pos_bound (t mod 3600) 60 ltac:(lia)) as B2.
  assert (H3 : (t mod 3600) mod 60 = t mod 60).
  { symmetry. rewrite <- (Z.mod_mod_divide t 3600 60) at 1; [reflexivity |].
    exists 60. reflexivity. }
  assert (0 <= t / 3600) by (apply Z.div_pos; lia).
  assert (0 <= t mod 3600 / 60) by (apply Z.div_pos; lia).
  assert (t mod 3600 / 60 < 60) by (apply Z.div_lt_upper_bound; lia).
  repeat split; try lia.
Qed.

(** Under an hour the clock reads MM:SS, two digits each. *)
Theorem formatTime_under_an_hour (t : Z) :
  0 <= t < 3600 ->
  formatTime t =
  String (digit (t / 60 / 10)) (String (digit (t / 60 mod 10))
    (String ":" (String (digit (t mod 60 / 10)) (String (digit (t mod 60 mod 10)) "")))).
Proof.
  intros Ht. unfold formatTime.
  rewrite Z.div_small by lia. cbn [Z.ltb Z.compare].
  rewrite !Z.rem_mod_nonneg by lia. rewrite (Z.mod_small t 3600) by lia.
  assert (Hm : 0 <= t / 60 < 100)
    by (split; [apply Z.div_pos; lia | apply Z.div_lt_upper_bound; lia]).
  assert (Hs : 0 <= t mod 60 < 100)
    by (pose proof (Z.mod_pos_bound t 60 ltac:(lia)); lia).
  rewrite (pad2_digits (t / 60)) by exact Hm.
  rewrite (pad2_digits (t mod 60)) by exact Hs.
  reflexivity.
Qed.

(** Two different times never read the same on the clock. *)
Theorem formatTime_tells_times_apart (t1 t2 : Z) :
  0 <= t1 -> 0 <= t2 -> t1 <> t2 -> formatTime t1 <> formatTime t2.
Proof.
  intros H1 H2 Hne Heq. apply Hne.
  destruct (formatTime_parts t1 H1) as (Hh1 & Hm1 & Hs1 & E1).
  destruct (formatTime_parts t2 H2) as (Hh2 & Hm2 & Hs2 & E2).
  unfold formatTime in Heq. cbv zeta in Heq.
  set (h1 := t1 / 3600) in *. set (h2 := t2 / 3600) in *.
  set (m1 := Z.rem t1 3600 / 60) in *. set (m2 := Z.rem t2 3600 / 60) in *.
  set (s1 := Z.rem t1 60) in *. set (s2 := Z.rem t2 60) in *.
  assert (Htail : forall m s, 0 <= m < 60 -> 0 <= s < 60 ->
            String.length (padStart (toString m) 2 "0" ++ ":"
                             ++ padStart (toString s) 2 "0") = 5%nat).
  { intros m s Hm Hs. rewrite !pad2_digits by lia. reflexivity. }
  apply string_app_inj_tail in Heq; [| now rewrite !Htail].
  destruct Heq as [Hhead Hrest].
  apply string_app_inj in Hrest;
    [| rewrite !pad2_digits by lia; reflexivity].
  destruct Hrest as [Hm Hs]. injection Hs as Hs.
  apply pad2_inj_below_100 in Hm; [| lia ..].
  apply pad2_inj_below_100 in Hs; [| lia ..].
  assert (Hh : h1 = h2).
  { destruct (Z.ltb_spec 0 h1) as [P1 | P1]; destruct (Z.ltb_spec 0 h2) as [P2 | P2].
    - apply string_app_inj_tail in Hhead; [| reflexivity].
      apply pad2_inj; [lia | lia | tauto].
    - exfalso. apply (f_equal String.length) in Hhead.
      rewrite string_length_app in Hhead. simpl in Hhead.
      pose proof (pad2_length_at_least h1 ltac:(lia)). lia.
    - exfalso. apply (f_equal String.length) in Hhead.
      rewrite string_length_app in Hhead. simpl in Hhead.
      pose proof (pad2_length_at_least h2 ltac:(lia)). lia.
    - lia. }
  lia.
Qed.

(** The form in front of [startTimer]: whatever is typed, the hours are
    at least zero and the minutes between zero and 59, so the total is
    never negative; the session starts exactly when the total is
    positive, with that total on the clock.  [h] and [m] are the integers
    [parseInt] gave ([None] for [NaN]); the hours are taken small enough
    for the total to stay within 2^53, where the numbers of the source
    are exact. *)
Theorem typed_duration_is_clamped (h m : option Z) (st : TimerState) :
  let st' := onMinutesChange m (onHoursChange h st) in
  let total := 3600 * Z.max 0 (parsed_or_zero h)
               + 60 * Z.max 0 (Z.min 59 (parsed_or_zero m)) in
  3600 * parsed_or_zero h + 60 * 59 <= 9007199254740992 ->
  totalSecondsOf st' = total /\
  total <= 9007199254740992 /\
  0 <= total /\
  (total = 0 -> startTimer st' = (st', [])) /\
  (0 < total ->
   startTimer st' =
   (mkTimerState total (durationHours st') (durationMinutes st') total,
    [OnStartLock])).
Proof.
  intros st' total Hexact.
  assert (Htotal : totalSecondsOf st' = total).
  { unfold st', total, totalSecondsOf, onMinutesChange, onHoursChange,
      setDurationMinutes, setDurationHours.
    cbn [durationHours durationMinutes]. lia. }
  split; [exact Htotal |]. split; [unfold total; lia |].
  split; [unfold total; lia |]. split; intros H.
  - unfold startTimer. rewrite Htotal. apply start_nonpositive. lia.
  - unfold startTimer. rewrite Htotal. apply start_positive. exact H.
Qed.

(** ** The profile form *)

Lemma lower_ascii_idem (c : ascii) : lower_ascii (lower_ascii c) = lower_ascii c.
Proof. destruct c as [[] [] [] [] [] [] [] []]; reflexivity. Qed.

Lemma toLowerCase_idem (s : string) : toLowerCase (toLowerCase s) = toLowerCase s.
Proof.
  induction s as [| c s IH]; simpl; [reflexivity |].
  now rewrite lower_ascii_idem, IH.
Qed.

Lemma UserRole_eqb_UNSET (r : UserRole) : UserRole_eqb r UNSET = true <-> r = UNSET.
Proof. destruct r; simpl; split; congruence. Qed.

Lemma UserRole_eqb_not_UNSET (r : UserRole) : UserRole_eqb r UNSET = false <-> r <> UNSET.
Proof. destruct r; simpl; split; congruence. Qed.

Lemma sameEmail_case (e1 e2 : string) (u : UserProfile.t) :
  toLowerCase e1 = toLowerCase e2 ->
  ProfileSetup.sameEmail e1 u = ProfileSetup.sameEmail e2 u.
Proof. intros H. unfold ProfileSetup.sameEmail. now rewrite H. Qed.

Lemma findUser_case (users : list UserProfile.t) (e1 e2 : string) :
  toLowerCase e1 = toLowerCase e2 ->
  ProfileSetup.findUser users e1 = ProfileSetup.findUser users e2.
Proof.
  intros H. unfold ProfileSetup.findUser.
  induction users as [| u users IH]; simpl; [reflexivity |].
  rewrite (sameEmail_case e1 e2 u H), IH. reflexivity.
Qed.

(** A user added at the end is the one found when nobody before has the
    address. *)
Lemma findUser_added (users : list UserProfile.t) (e : string) (p : UserProfile.t) :
  ProfileSetup.findUser users e = None ->
  ProfileSetup.sameEmail e p = true ->
  ProfileSetup.findUser (users ++ [p]) e = Some p.
Proof.
  unfold ProfileSetup.findUser. intros Hnone Hp.
  induction users as [| u users IH]; simpl in *.
  - now rewrite Hp.
  - destruct (ProfileSetup.sameEmail e u); [discriminate | auto].
Qed.

Lemma findUser_found (users : list UserProfile.t) (e : string) (u : UserProfile.t) :
  ProfileSetup.findUser users e = Some u ->
  In u users /\ ProfileSetup.sameEmail e u = true.
Proof. unfold ProfileSetup.findUser. apply find_some. Qed.

Lemma findUser_None_address (users : list UserProfile.t) (e : string) :
  ProfileSetup.findUser users e = None ->
  ~ In (toLowerCase e) (ProfileSetup.addresses users).
Proof.
  unfold ProfileSetup.findUser.
  induction users as [| u users IH]; simpl; intros Hnone; [tauto |].
  unfold ProfileSetup.sameEmail in Hnone at 1.
  destruct (UserProfile.email u) as [a |].
  - destruct (String.eqb_spec (toLowerCase a) (toLowerCase e)) as [_ | Hne];
      [discriminate |].
    intros [Hhead | Htail]; [congruence | now apply IH].
  - now apply IH.
Qed.

Lemma addresses_app (l1 l2 : list UserProfile.t) :
  ProfileSetup.addresses (l1 ++ l2)
  = (ProfileSetup.addresses l1 ++ ProfileSetup.addresses l2)%list.
Proof.
  induction l1 as [| u l1 IH]; simpl; [reflexivity |].
  destruct (UserProfile.email u); simpl; now rewrite IH.
Qed.

Lemma NoDup_snoc {A : Type} (l : list A) (a : A) :
  NoDup l -> ~ In a l -> NoDup (l ++ [a]).
Proof.
  intros Hl Ha. induction Hl as [| x l Hx Hl IH]; simpl.
  - constructor; [tauto | constructor].
  - constructor.
    + rewrite in_app_iff. simpl. intros [H | [H | []]]; [tauto |].
      apply Ha. now left.
    + apply IH. intros H. apply Ha. now right.
Qed.

(** The effect leaves the form in step with the list: it is in sign-up
    mode only when nobody saved has the address. *)
Lemma detectKnownUser_in_step (st : ProfileSetup.State) :
  let st' := ProfileSetup.detectKnownUser st in
  ProfileSetup.registeredUsers st' = ProfileSetup.registeredUsers st /\
  ProfileSetup.email st' = ProfileSetup.email st /\
  (ProfileSetup.isKnownUser st' = false ->
   ProfileSetup.findUser (ProfileSetup.registeredUsers st') (ProfileSetup.email st')
   = None).
Proof.
  unfold ProfileSetup.detectKnownUser.
  destruct (ProfileSetup.findUser (ProfileSetup.registeredUsers st)
              (ProfileSetup.email st)) eqn:Hfind; simpl;
    repeat split; try discriminate; auto.
Qed.

(** The outcomes of [handleSubmit]: a message and nothing else, a sign-in
    with a saved user, or a sign-up that writes the list with the new
    profile at its end. *)
Lemma handleSubmit_cases (pg : ProfileSetup.Page) :
  let st := ProfileSetup.cells pg in
  (exists msg,
      ProfileSetup.handleSubmit pg
      = ProfileSetup.mkPage (ProfileSetup.setError (Some msg) st)
          (ProfileSetup.storage pg) (ProfileSetup.completed pg)
      /\ ProfileSetup.errorMentionsRole (Some msg)
         = UserRole_eqb (ProfileSetup.role st) UNSET)
  \/
  (exists user,
      ProfileSetup.role st <> UNSET /\
      ProfileSetup.isKnownUser st = true /\
      ProfileSetup.findUser (ProfileSetup.registeredUsers st) (ProfileSetup.email st)
      = Some user /\
      ProfileSetup.passwordMatches user (ProfileSetup.password st) = true /\
      ProfileSetup.handleSubmit pg
      = ProfileSetup.mkPage (ProfileSetup.setError None st)
          (ProfileSetup.storage pg) (ProfileSetup.completed pg ++ [user])%list)
  \/
  (ProfileSetup.role st <> UNSET /\
   ProfileSetup.isKnownUser st = false /\
   ProfileSetup.name st <> "" /\
   ProfileSetup.password st <> "" /\
   ProfileSetup.email st <> "" /\
   ProfileSetup.password st = ProfileSetup.confirmPassword st /\
   ProfileSetup.handleSubmit pg
   = ProfileSetup.mkPage (ProfileSetup.setError None st)
       (Some (ProfileSetup.registeredUsers st
              ++ [UserProfile.mk (ProfileSetup.name st) (ProfileSetup.role st)
                    (Some (toLowerCase (ProfileSetup.email st)))
                    (Some (ProfileSetup.password st)) false None])%list)
       (ProfileSetup.completed pg
        ++ [UserProfile.mk (ProfileSetup.name st) (ProfileSetup.role st)
              (Some (toLowerCase (ProfileSetup.email st)))
              (Some (ProfileSetup.password st)) false None])%list).
Proof.
  intros st. unfold ProfileSetup.handleSubmit. fold st.
  destruct (UserRole_eqb (ProfileSetup.role st) UNSET) eqn:Hrole.
  { left. eexists. split; reflexivity. }
  apply UserRole_eqb_not_UNSET in Hrole.
  destruct (ProfileSetup.isKnownUser st) eqn:Hknown.
  { destruct (ProfileSetup.findUser (ProfileSetup.registeredUsers st)
                (ProfileSetup.email st)) as [user |] eqn:Hfind.
    - destruct (ProfileSetup.passwordMatches user (ProfileSetup.password st)) eqn:Hpw.
      + right. left. exists user. repeat split; auto.
      + left. eexists. split; reflexivity.
    - left. eexists. split; reflexivity. }
  destruct (truthy (ProfileSetup.name st)) eqn:Hname;
    [| left; eexists; split; reflexivity].
  destruct (truthy (ProfileSetup.password st)) eqn:Hpw;
    [| left; eexists; split; reflexivity].
  destruct (truthy (ProfileSetup.email st)) eqn:Hemail;
    [| left; eexists; split; reflexivity].
  cbn [negb orb].
  destruct (String.eqb_spec (ProfileSetup.password st) (ProfileSetup.confirmPassword st))
    as [Hsame | Hdiff]; cbn [negb];
    [| left; eexists; split; reflexivity].
  right. right. apply truthy_true_iff in Hname, Hpw, Hemail.
  repeat split; auto.
Qed.

Lemma run_app (events1 events2 : list ProfileSetup.Event) (pg : ProfileSetup.Page) :
  ProfileSetup.run (events1 ++ events2) pg
  = ProfileSetup.run events2 (ProfileSetup.run events1 pg).
Proof.
  revert pg. induction events1 as [| e events1 IH]; intros pg; simpl;
    [reflexivity | apply IH].
Qed.

(** What holds of the form after any use of it, over the storage it was
    mounted on: the list in memory is the saved one; the form is in
    sign-up mode only for an address nobody saved has; the storage is
    the saved one or the saved list with one new profile, which has a
    role and a new address; and whoever was handed on is a saved user or
    has a role. *)
Lemma run_invariant
  (saved : option (list UserProfile.t)) (events : list ProfileSetup.Event) :
  let pg := ProfileSetup.run events (ProfileSetup.mount saved) in
  let users := ProfileSetup.savedUsers saved in
  ProfileSetup.registeredUsers (ProfileSetup.cells pg) = users /\
  (ProfileSetup.isKnownUser (ProfileSetup.cells pg) = false ->
   ProfileSetup.findUser users (ProfileSetup.email (ProfileSetup.cells pg)) = None) /\
  (ProfileSetup.storage pg = saved \/
   exists p e,
     ProfileSetup.storage pg = Some (users ++ [p])%list /\
     UserProfile.role p <> UNSET /\
     UserProfile.email p = Some (toLowerCase e) /\
     ProfileSetup.findUser users e = None) /\
  (forall u, In u (ProfileSetup.completed pg) ->
             In u users \/ UserProfile.role u <> UNSET).
Proof.
  induction events as [| ev events IH] using rev_ind; intros pg users.
  - unfold pg, users, ProfileSetup.mount, ProfileSetup.loadRegisteredUsers.
    cbn [ProfileSetup.run ProfileSetup.storage].
    destruct saved as [l |];
      cbn [ProfileSetup.withCells ProfileSetup.cells ProfileSetup.storage
           ProfileSetup.completed ProfileSetup.savedUsers];
      (split; [| split; [| split; [now left | intros u []]]]).
    + apply (detectKnownUser_in_step
               (ProfileSetup.setRegisteredUsers l
                  (ProfileSetup.detectKnownUser ProfileSetup.initialState))).
    + intros Hk.
      destruct (detectKnownUser_in_step
                  (ProfileSetup.setRegisteredUsers l
                     (ProfileSetup.detectKnownUser ProfileSetup.initialState)))
        as (Hr & _ & Hs).
      cbv zeta in Hr, Hs. rewrite Hr in Hs. apply Hs, Hk.
    + reflexivity.
    + reflexivity.
  - unfold pg. rewrite run_app. cbn [ProfileSetup.run].
    cbv zeta in IH. fold users in IH.
    set (pg0 := ProfileSetup.run events (ProfileSetup.mount saved)) in *.
    destruct IH as (Hregs & Hstep & Hstore & Hdone).
    destruct ev as [v | v | v | v | r | |]; cbn [ProfileSetup.step].
    + unfold ProfileSetup.onEmailChange.
      destruct (String.eqb v (ProfileSetup.email (ProfileSetup.cells pg0)));
        [repeat split; assumption |].
      cbn [ProfileSetup.withCells ProfileSetup.cells ProfileSetup.storage
           ProfileSetup.completed].
      destruct (detectKnownUser_in_step
                  (ProfileSetup.setEmail v (ProfileSetup.cells pg0)))
        as (Hr & He & Hs).
      cbv zeta in Hr, He, Hs. cbn [ProfileSetup.registeredUsers ProfileSetup.setEmail]
        in Hr. rewrite Hregs in Hr.
      split; [exact Hr |]. split; [| split; assumption].
      intros Hk. specialize (Hs Hk). rewrite Hr in Hs. exact Hs.
    + repeat split; assumption.
    + repeat split; assumption.
    + repeat split; assumption.
    + unfold ProfileSetup.onRoleClick.
      destruct (ProfileSetup.errorMentionsRole
                  (ProfileSetup.error (ProfileSetup.cells pg0)));
        repeat split; assumption.
    + unfold ProfileSetup.handleGuest.
      destruct (UserRole_eqb (ProfileSetup.role (ProfileSetup.cells pg0)) UNSET)
        eqn:Hrole.
      * repeat split; assumption.
      * apply UserRole_eqb_not_UNSET in Hrole.
        split; [exact Hregs |]. split; [exact Hstep |]. split; [exact Hstore |].
        cbn [ProfileSetup.onComplete ProfileSetup.completed].
        intros u Hu. apply in_app_iff in Hu. destruct Hu as [Hu | [<- | []]].
        -- now apply Hdone.
        -- right. exact Hrole.
    + destruct (handleSubmit_cases pg0)
        as [(msg & -> & _) | [(user & Hrole & Hk & Hfind & Hpw & ->) |
                              (Hrole & Hk & Hn & Hp & He & Hc & ->)]];
        cbn [ProfileSetup.cells ProfileSetup.storage ProfileSetup.completed
             ProfileSetup.setError ProfileSetup.registeredUsers
             ProfileSetup.isKnownUser ProfileSetup.email].
      * repeat split; assumption.
      * split; [exact Hregs |]. split; [exact Hstep |]. split; [exact Hstore |].
        intros u Hu. apply in_app_iff in Hu. destruct Hu as [Hu | [<- | []]].
        -- now apply Hdone.
        -- left. rewrite Hregs in Hfind. apply (findUser_found _ _ _ Hfind).
      * split; [exact Hregs |]. split; [exact Hstep |]. split.
        -- right. eexists. exists (ProfileSetup.email (ProfileSetup.cells pg0)).
           rewrite Hregs. split; [reflexivity |]. split; [exact Hrole |].
           split; [reflexivity | apply Hstep, Hk].
        -- intros u Hu. apply in_app_iff in Hu. destruct Hu as [Hu | [<- | []]].
           ++ now apply Hdone.
           ++ right. exact Hrole.
Qed.

(** However the form is used, no two users of the list it writes share
    an address, letter case aside, provided the saved ones did not. *)
Theorem registered_addresses_stay_distinct
  (saved : option (list UserProfile.t)) (events : list ProfileSetup.Event) :
  NoDup (ProfileSetup.addresses (ProfileSetup.savedUsers saved)) ->
  NoDup (ProfileSetup.addresses
           (ProfileSetup.savedUsers
              (ProfileSetup.storage
                 (ProfileSetup.run events (ProfileSetup.mount saved))))).
Proof.
  intros Hsaved.
  destruct (run_invariant saved events) as (_ & _ & [-> | (p & e & -> & _ & Hp & He)] & _).
  - exact Hsaved.
  - cbn [ProfileSetup.savedUsers]. rewrite addresses_app.
    cbn [ProfileSetup.addresses]. rewrite Hp, toLowerCase_idem.
    apply NoDup_snoc; [exact Hsaved |].
    now apply findUser_None_address.
Qed.

(** However the form is used, every profile it hands on and every user
    it writes has a role other than UNSET, provided the saved ones had. *)
Theorem completed_profiles_have_a_role
  (saved : option (list UserProfile.t)) (events : list ProfileSetup.Event) :
  Forall (fun u => UserProfile.role u <> UNSET) (ProfileSetup.savedUsers saved) ->
  Forall (fun u => UserProfile.role u <> UNSET)
         (ProfileSetup.completed (ProfileSetup.run events (ProfileSetup.mount saved)))
  /\
  Forall (fun u => UserProfile.role u <> UNSET)
         (ProfileSetup.savedUsers
            (ProfileSetup.storage (ProfileSetup.run events (ProfileSetup.mount saved)))).
Proof.
  intros Hsaved. rewrite Forall_forall in Hsaved.
  destruct (run_invariant saved events) as (_ & _ & Hstore & Hdone). split.
  - apply Forall_forall. intros u Hu. destruct (Hdone u Hu) as [Hin | Hrole]; auto.
  - apply Forall_forall. intros u Hu.
    destruct Hstore as [Hs | (p & e & Hs & Hrole & _)]; rewrite Hs in Hu.
    + now apply Hsaved.
    + cbn [ProfileSetup.savedUsers] in Hu. apply in_app_iff in Hu.
      destruct Hu as [Hu | [<- | []]]; [now apply Hsaved | exact Hrole].
Qed.

(** The form mounted on a list and given an address that a saved user
    has: it is in sign-in mode with the role of that user. *)
Lemma known_address_state
  (users : list UserProfile.t) (typed : string) (u : UserProfile.t) :
  ProfileSetup.findUser users typed = Some u ->
  let back := ProfileSetup.onEmailChange typed (ProfileSetup.mount (Some users)) in
  ProfileSetup.registeredUsers (ProfileSetup.cells back) = users /\
  ProfileSetup.email (ProfileSetup.cells back) = typed /\
  ProfileSetup.isKnownUser (ProfileSetup.cells back) = true /\
  ProfileSetup.role (ProfileSetup.cells back) = UserProfile.role u /\
  ProfileSetup.completed back = [] /\
  ProfileSetup.storage back = Some users.
Proof.
  intros Hfind back.
  assert (Hregs : ProfileSetup.registeredUsers
                    (ProfileSetup.cells (ProfileSetup.mount (Some users))) = users).
  { unfold ProfileSetup.mount, ProfileSetup.loadRegisteredUsers.
    cbn [ProfileSetup.storage ProfileSetup.withCells ProfileSetup.cells].
    apply (detectKnownUser_in_step
             (ProfileSetup.setRegisteredUsers users
                (ProfileSetup.detectKnownUser ProfileSetup.initialState))). }
  assert (Hdetect :
    ProfileSetup.detectKnownUser
      (ProfileSetup.setEmail typed
         (ProfileSetup.cells (ProfileSetup.mount (Some users))))
    = ProfileSetup.setRole (UserProfile.role u)
        (ProfileSetup.setIsKnownUser true
           (ProfileSetup.setEmail typed
              (ProfileSetup.cells (ProfileSetup.mount (Some users)))))).
  { unfold ProfileSetup.detectKnownUser at 1.
    cbn [ProfileSetup.registeredUsers ProfileSetup.email ProfileSetup.setEmail].
    rewrite Hregs, Hfind. reflexivity. }
  assert (Hback :
    back = ProfileSetup.withCells
             (ProfileSetup.detectKnownUser
                (ProfileSetup.setEmail typed
                   (ProfileSetup.cells (ProfileSetup.mount (Some users)))))
             (ProfileSetup.mount (Some users))).
  { unfold back, ProfileSetup.onEmailChange.
    destruct (String.eqb typed
                (ProfileSetup.email
                   (ProfileSetup.cells (ProfileSetup.mount (Some users)))))
      eqn:Hsame; [| reflexivity].
    apply String.eqb_eq in Hsame.
    assert (Hemail : ProfileSetup.email
                       (ProfileSetup.cells (ProfileSetup.mount (Some users))) = "").
    { unfold ProfileSetup.mount, ProfileSetup.loadRegisteredUsers,
        ProfileSetup.detectKnownUser.
      cbn. destruct (find (ProfileSetup.sameEmail "") users); reflexivity. }
    rewrite Hemail in Hsame. clear Hdetect Hemail. subst typed.
    unfold ProfileSetup.findUser in Hfind.
    unfold ProfileSetup.mount, ProfileSetup.loadRegisteredUsers,
      ProfileSetup.detectKnownUser.
    cbn. rewrite Hfind. cbn. rewrite Hfind. reflexivity. }
  rewrite Hback.
  cbn [ProfileSetup.withCells ProfileSetup.cells ProfileSetup.completed
       ProfileSetup.storage].
  rewrite Hdetect.
  cbn [ProfileSetup.registeredUsers ProfileSetup.email ProfileSetup.isKnownUser
       ProfileSetup.role ProfileSetup.setRole ProfileSetup.setIsKnownUser
       ProfileSetup.setEmail].
  rewrite Hregs. repeat split; reflexivity.
Qed.

(** Signing up and signing in again: a complete form in sign-up mode
    writes the list with the new profile at its end and hands the profile
    on; a form mounted on that list and given the address in any letter
    case is in sign-in mode with the saved role, hands the same profile
    on for the same password, and for any other password shows the
    message and hands nothing on. *)
Theorem signup_then_signin (pg : ProfileSetup.Page) (typed : string) :
  let st := ProfileSetup.cells pg in
  let p := UserProfile.mk (ProfileSetup.name st) (ProfileSetup.role st)
             (Some (toLowerCase (ProfileSetup.email st)))
             (Some (ProfileSetup.password st)) false None in
  let saved := ProfileSetup.storage (ProfileSetup.handleSubmit pg) in
  let back := ProfileSetup.onEmailChange typed (ProfileSetup.mount saved) in
  ProfileSetup.role st <> UNSET ->
  ProfileSetup.isKnownUser st = false ->
  ProfileSetup.findUser (ProfileSetup.registeredUsers st) (ProfileSetup.email st) = None ->
  ProfileSetup.name st <> "" ->
  ProfileSetup.password st <> "" ->
  ProfileSetup.email st <> "" ->
  ProfileSetup.password st = ProfileSetup.confirmPassword st ->
  toLowerCase typed = toLowerCase (ProfileSetup.email st) ->
  saved = Some (ProfileSetup.registeredUsers st ++ [p])%list /\
  ProfileSetup.completed (ProfileSetup.handleSubmit pg)
  = (ProfileSetup.completed pg ++ [p])%list /\
  ProfileSetup.isKnownUser (ProfileSetup.cells back) = true /\
  ProfileSetup.role (ProfileSetup.cells back) = ProfileSetup.role st /\
  ProfileSetup.completed
    (ProfileSetup.handleSubmit
       (ProfileSetup.onPasswordChange (ProfileSetup.password st) back)) = [p] /\
  (forall wrong,
      wrong <> ProfileSetup.password st ->
      ProfileSetup.completed
        (ProfileSetup.handleSubmit (ProfileSetup.onPasswordChange wrong back)) = [] /\
      ProfileSetup.error
        (ProfileSetup.cells
           (ProfileSetup.handleSubmit (ProfileSetup.onPasswordChange wrong back)))
      = Some "Incorrect password for this email.").
Proof.
  intros st p saved back Hrole Hknown Hnew Hname Hpw Hemail Hconfirm Hcase.
  assert (Hsubmit :
    ProfileSetup.handleSubmit pg
    = ProfileSetup.mkPage (ProfileSetup.setError None st)
        (Some (ProfileSetup.registeredUsers st ++ [p])%list)
        (ProfileSetup.completed pg ++ [p])%list).
  { destruct (handleSubmit_cases pg)
      as [(msg & Hs & Hm) | [(user & _ & Hk & _) | (_ & _ & _ & _ & _ & _ & Hs)]].
    - exfalso. fold st in Hs.
      unfold ProfileSetup.handleSubmit in Hs. fold st in Hs.
      apply UserRole_eqb_not_UNSET in Hrole. rewrite Hrole, Hknown in Hs.
      apply truthy_true_iff in Hname, Hpw, Hemail.
      rewrite Hname, Hpw, Hemail in Hs. cbn [negb orb] in Hs.
      rewrite <- Hconfirm, String.eqb_refl in Hs. cbn [negb] in Hs.
      unfold ProfileSetup.onComplete, ProfileSetup.setItem, ProfileSetup.withCells in Hs.
      cbn [ProfileSetup.cells ProfileSetup.storage ProfileSetup.completed] in Hs.
      discriminate Hs.
    - fold st in Hk. congruence.
    - exact Hs. }
  assert (Hsaved : saved = Some (ProfileSetup.registeredUsers st ++ [p])%list).
  { unfold saved. rewrite Hsubmit. reflexivity. }
  assert (Hfound :
    ProfileSetup.findUser (ProfileSetup.registeredUsers st ++ [p]) typed = Some p).
  { rewrite (findUser_case _ typed (ProfileSetup.email st) Hcase).
    apply findUser_added; [exact Hnew |].
    unfold ProfileSetup.sameEmail, p. cbn [UserProfile.email].
    rewrite toLowerCase_idem. apply String.eqb_refl. }
  destruct (known_address_state _ typed p Hfound)
    as (Bregs & Bemail & Bknown & Brole & Bdone & Bstore).
  cbv zeta in Bregs, Bemail, Bknown, Brole, Bdone, Bstore.
  rewrite <- Hsaved in Bregs, Bemail, Bknown, Brole, Bdone, Bstore.
  fold back in Bregs, Bemail, Bknown, Brole, Bdone, Bstore.
  split; [exact Hsaved |]. split; [rewrite Hsubmit; reflexivity |].
  split; [exact Bknown |]. split; [exact Brole |].
  assert (Hrole' : UserRole_eqb (ProfileSetup.role (ProfileSetup.cells back)) UNSET = false).
  { rewrite Brole. apply UserRole_eqb_not_UNSET. exact Hrole. }
  assert (Hrun : forall pw,
    ProfileSetup.handleSubmit (ProfileSetup.onPasswordChange pw back)
    = if ProfileSetup.passwordMatches p pw
      then ProfileSetup.onComplete p
             (ProfileSetup.withCells
                (ProfileSetup.setError None
                   (ProfileSetup.setPassword pw (ProfileSetup.cells back)))
                (ProfileSetup.onPasswordChange pw back))
      else ProfileSetup.withCells
             (ProfileSetup.setError (Some "Incorrect password for this email.")
                (ProfileSetup.setError None
                   (ProfileSetup.setPassword pw (ProfileSetup.cells back))))
             (ProfileSetup.onPasswordChange pw back)).
  { intros pw. unfold ProfileSetup.handleSubmit, ProfileSetup.onPasswordChange.
    cbn [ProfileSetup.withCells ProfileSetup.cells ProfileSetup.role
         ProfileSetup.isKnownUser ProfileSetup.registeredUsers ProfileSetup.email
         ProfileSetup.password ProfileSetup.setPassword ProfileSetup.storage
         ProfileSetup.completed ProfileSetup.setError].
    rewrite Hrole', Bknown, Bregs, Bemail, Hfound. reflexivity. }
  split.
  - rewrite Hrun. unfold ProfileSetup.passwordMatches, p. cbn [UserProfile.passwordHash].
    rewrite String.eqb_refl.
    cbn [ProfileSetup.onComplete ProfileSetup.completed ProfileSetup.withCells
         ProfileSetup.onPasswordChange].
    rewrite Bdone. reflexivity.
  - intros wrong Hwrong. rewrite Hrun.
    unfold ProfileSetup.passwordMatches, p. cbn [UserProfile.passwordHash].
    destruct (String.eqb_spec (ProfileSetup.password st) wrong) as [Heq | _];
      [congruence |].
    cbn [ProfileSetup.completed ProfileSetup.withCells ProfileSetup.onPasswordChange
         ProfileSetup.cells ProfileSetup.error ProfileSetup.setError].
    split; [exact Bdone | reflexivity].
Qed.

(** A form that is not filled in properly changes nothing but the
    message: no role, or in sign-up mode a missing name, password or
    address, or two passwords that differ. *)
Theorem incomplete_form_changes_nothing (pg : ProfileSetup.Page) :
  let st := ProfileSetup.cells pg in
  ProfileSetup.role st = UNSET \/
  (ProfileSetup.isKnownUser st = false /\
   (ProfileSetup.name st = "" \/ ProfileSetup.password st = "" \/
    ProfileSetup.email st = "" \/
    ProfileSetup.password st <> ProfileSetup.confirmPassword st)) ->
  ProfileSetup.completed (ProfileSetup.handleSubmit pg) = ProfileSetup.completed pg /\
  ProfileSetup.storage (ProfileSetup.handleSubmit pg) = ProfileSetup.storage pg /\
  ProfileSetup.error (ProfileSetup.cells (ProfileSetup.handleSubmit pg)) <> None.
Proof.
  intros st Hbad. subst st.
  destruct (handleSubmit_cases pg)
    as [(msg & -> & _) | [(user & Hrole & Hk & _) |
                          (Hrole & Hk & Hn & Hp & He & Hc & _)]].
  - cbn [ProfileSetup.completed ProfileSetup.storage ProfileSetup.cells
         ProfileSetup.error ProfileSetup.setError].
    repeat split; discriminate.
  - exfalso. destruct Hbad as [Hu | [Hk' _]]; congruence.
  - exfalso. destruct Hbad as [Hu | [_ [H | [H | [H | H]]]]]; congruence.
Qed.

(** A click on a role takes away a message about the role and no other
    message: after a submit or a guest click without a role the message
    is gone, after a submit with a role the message of the submit
    stays. *)
Theorem role_click_clears_role_messages_only (pg : ProfileSetup.Page) (r : UserRole) :
  (ProfileSetup.role (ProfileSetup.cells pg) = UNSET ->
   ProfileSetup.error
     (ProfileSetup.cells (ProfileSetup.onRoleClick r (ProfileSetup.handleSubmit pg)))
   = None /\
   ProfileSetup.error
     (ProfileSetup.cells (ProfileSetup.onRoleClick r (ProfileSetup.handleGuest pg)))
   = None) /\
  (ProfileSetup.role (ProfileSetup.cells pg) <> UNSET ->
   ProfileSetup.error
     (ProfileSetup.cells (ProfileSetup.onRoleClick r (ProfileSetup.handleSubmit pg)))
   = ProfileSetup.error (ProfileSetup.cells (ProfileSetup.handleSubmit pg))).
Proof.
  split.
  - intros Hrole. apply UserRole_eqb_UNSET in Hrole.
    unfold ProfileSetup.handleSubmit, ProfileSetup.handleGuest.
    rewrite Hrole. split; reflexivity.
  - intros Hrole. apply UserRole_eqb_not_UNSET in Hrole.
    destruct (handleSubmit_cases pg)
      as [(msg & -> & Hm) | [(user & _ & _ & _ & _ & ->) |
                             (_ & _ & _ & _ & _ & _ & ->)]].
    + rewrite Hrole in Hm. unfold ProfileSetup.onRoleClick.
      cbn [ProfileSetup.cells ProfileSetup.error ProfileSetup.setError].
      rewrite Hm. reflexivity.
    + reflexivity.
    + reflexivity.
Qed.

(** ** The chat widget *)

Lemma stream_keeps (streamed : list string) (st : AIAssistant.State) :
  AIAssistant.messages (AIAssistant.stream streamed st) = AIAssistant.messages st /\
  AIAssistant.input (AIAssistant.stream streamed st) = AIAssistant.input st /\
  AIAssistant.loading (AIAssistant.stream streamed st) = AIAssistant.loading st.
Proof.
  revert st. induction streamed as [| t rest IH]; intros st; simpl; [auto |].
  destruct (IH (AIAssistant.setStreamingText t st)) as (-> & -> & ->). auto.
Qed.

(** What [chatWithAI] leaves as the answer in the conversation. *)
Lemma handleSend_accepted
  (trim : string -> string)
  (chatWithAI : list AIAssistant.ChatMessage -> UserRole -> AIAssistant.ChatOutcome)
  (role : UserRole) (w : AIAssistant.Widget) :
  let st := AIAssistant.cells w in
  let sent := (AIAssistant.messages st
               ++ [AIAssistant.mkChatMessage AIAssistant.user
                     (trim (AIAssistant.input st))])%list in
  let w' := AIAssistant.handleSend trim chatWithAI role w in
  truthy (trim (AIAssistant.input st)) = true ->
  AIAssistant.loading st = false ->
  AIAssistant.messages (AIAssistant.cells w')
  = (sent
     ++ [AIAssistant.mkChatMessage AIAssistant.model
           match chatWithAI sent role with
           | AIAssistant.ChatResolves _ fullResponse => fullResponse
           | AIAssistant.ChatRejects _ =>
               "I'm sorry, I encountered an error. Please try again."
           end])%list /\
  AIAssistant.asked w' = (AIAssistant.asked w ++ [(sent, role)])%list /\
  AIAssistant.input (AIAssistant.cells w') = "" /\
  AIAssistant.loading (AIAssistant.cells w') = false /\
  AIAssistant.streamingText (AIAssistant.cells w') = "".
Proof.
  intros st sent w' Hinput Hloading. unfold w', AIAssistant.handleSend.
  fold st. rewrite Hinput, Hloading. cbn [negb orb]. fold sent.
  destruct (chatWithAI sent role) as [streamed | streamed fullResponse];
    cbn [AIAssistant.cells AIAssistant.asked];
    match goal with
    | |- context [AIAssistant.stream streamed ?s] =>
        destruct (stream_keeps streamed s) as (Hm & Hi & Hl)
    end;
    cbn [AIAssistant.messages AIAssistant.input AIAssistant.loading
         AIAssistant.streamingText AIAssistant.setLoading
         AIAssistant.setStreamingText AIAssistant.setMessages
         AIAssistant.setInput] in *;
    rewrite ?Hm, ?Hi; repeat split; reflexivity.
Qed.

(** One send: a blank text, or a send while an answer is awaited, does
    nothing at all; any other send adds the trimmed text as the user's
    message and then one message of the model, the answer or the apology,
    asks [chatWithAI] once with the conversation up to the user's
    message, and leaves the input empty and the widget idle. *)
Theorem handleSend_adds_one_exchange
  (trim : string -> string)
  (chatWithAI : list AIAssistant.ChatMessage -> UserRole -> AIAssistant.ChatOutcome)
  (role : UserRole) (w : AIAssistant.Widget) :
  let st := AIAssistant.cells w in
  let sent := (AIAssistant.messages st
               ++ [AIAssistant.mkChatMessage AIAssistant.user
                     (trim (AIAssistant.input st))])%list in
  let w' := AIAssistant.handleSend trim chatWithAI role w in
  (trim (AIAssistant.input st) = "" \/ AIAssistant.loading st = true -> w' = w) /\
  (trim (AIAssistant.input st) <> "" ->
   AIAssistant.loading st = false ->
   AIAssistant.messages (AIAssistant.cells w')
   = (sent
      ++ [AIAssistant.mkChatMessage AIAssistant.model
            match chatWithAI sent role with
            | AIAssistant.ChatResolves _ fullResponse => fullResponse
            | AIAssistant.ChatRejects _ =>
                "I'm sorry, I encountered an error. Please try again."
            end])%list /\
   AIAssistant.asked w' = (AIAssistant.asked w ++ [(sent, role)])%list /\
   AIAssistant.input (AIAssistant.cells w') = "" /\
   AIAssistant.loading (AIAssistant.cells w') = false /\
   AIAssistant.streamingText (AIAssistant.cells w') = "").
Proof.
  intros st sent w'. split.
  - intros Hskip. unfold w', AIAssistant.handleSend. fold st.
    destruct Hskip as [Hblank | Hbusy].
    + apply truthy_false_iff in Hblank. now rewrite Hblank.
    + rewrite Hbusy. now rewrite orb_true_r.
  - intros Hinput Hloading. apply truthy_true_iff in Hinput.
    apply (handleSend_accepted trim chatWithAI role w Hinput Hloading).
Qed.

Lemma takesTurns_app (first : AIAssistant.Speaker) (ms tail : list AIAssistant.ChatMessage) :
  AIAssistant.takesTurns first ms = true ->
  Nat.even (length ms) = true ->
  AIAssistant.takesTurns first (ms ++ tail) = AIAssistant.takesTurns first tail.
Proof.
  intros Hturns Heven. apply Nat.even_spec in Heven. destruct Heven as [n Hn].
  revert ms Hturns Hn. induction n as [| n IH]; intros ms Hturns Hn.
  - destruct ms; [reflexivity | discriminate Hn].
  - destruct ms as [| [ra ta] [| [rb tb] ms]]; simpl in Hn; try lia.
    destruct first, ra, rb; simpl in Hturns |- *; try discriminate Hturns;
      (apply IH; [exact Hturns | lia]).
Qed.

(** The invariant of a conversation, kept by every send. *)
Lemma handleSend_keeps_turns
  (trim : string -> string)
  (chatWithAI : list AIAssistant.ChatMessage -> UserRole -> AIAssistant.ChatOutcome)
  (role : UserRole) (typed : string) (w : AIAssistant.Widget) :
  AIAssistant.takesTurns AIAssistant.user (AIAssistant.messages (AIAssistant.cells w))
  = true ->
  length (AIAssistant.messages (AIAssistant.cells w))
  = (2 * length (AIAssistant.asked w))%nat ->
  AIAssistant.loading (AIAssistant.cells w) = false ->
  let w' := AIAssistant.handleSend trim chatWithAI role
              (AIAssistant.mkWidget (AIAssistant.setInput typed (AIAssistant.cells w))
                 (AIAssistant.asked w)) in
  AIAssistant.takesTurns AIAssistant.user (AIAssistant.messages (AIAssistant.cells w'))
  = true /\
  length (AIAssistant.messages (AIAssistant.cells w'))
  = (2 * length (AIAssistant.asked w'))%nat /\
  AIAssistant.loading (AIAssistant.cells w') = false.
Proof.
  intros Hturns Hlen Hidle w'.
  set (w0 := AIAssistant.mkWidget (AIAssistant.setInput typed (AIAssistant.cells w))
               (AIAssistant.asked w)) in *.
  destruct (truthy (trim typed)) eqn:Htyped.
  - destruct (handleSend_accepted trim chatWithAI role w0 Htyped Hidle)
      as (Hm & Ha & _ & Hl & _).
    fold w' in Hm, Ha, Hl. rewrite Hm, Ha, Hl.
    cbn [AIAssistant.cells AIAssistant.asked AIAssistant.messages
         AIAssistant.setInput w0].
    rewrite <- app_assoc. cbn [app].
    assert (Heven : Nat.even (length (AIAssistant.messages (AIAssistant.cells w)))
                    = true).
    { rewrite Hlen. apply Nat.even_spec. now exists (length (AIAssistant.asked w)). }
    rewrite takesTurns_app by assumption.
    rewrite !length_app. cbn [length]. split; [reflexivity |]. split; [lia | reflexivity].
  - assert (Hsame : w' = w0).
    { unfold w', AIAssistant.handleSend.
      cbn [AIAssistant.cells AIAssistant.input AIAssistant.setInput w0].
      now rewrite Htyped. }
    rewrite Hsame. auto.
Qed.

(** A conversation takes turns: after any run of sends from the empty
    chat the messages go user, model, user, model and so on, two for
    each call of [chatWithAI], and the widget is idle. *)
Theorem conversation_takes_turns
  (trim : string -> string) (role : UserRole) (innerWidth innerHeight : Z)
  (turns : list (string *
                 (list AIAssistant.ChatMessage -> UserRole -> AIAssistant.ChatOutcome))) :
  let w := AIAssistant.handleSends trim role turns
             (AIAssistant.mkWidget
                (AIAssistant.initialState innerWidth innerHeight) []) in
  AIAssistant.takesTurns AIAssistant.user (AIAssistant.messages (AIAssistant.cells w))
  = true /\
  length (AIAssistant.messages (AIAssistant.cells w))
  = (2 * length (AIAssistant.asked w))%nat /\
  AIAssistant.loading (AIAssistant.cells w) = false.
Proof.
  assert (Hgen : forall w0,
    AIAssistant.takesTurns AIAssistant.user
      (AIAssistant.messages (AIAssistant.cells w0)) = true ->
    length (AIAssistant.messages (AIAssistant.cells w0))
    = (2 * length (AIAssistant.asked w0))%nat ->
    AIAssistant.loading (AIAssistant.cells w0) = false ->
    let w := AIAssistant.handleSends trim role turns w0 in
    AIAssistant.takesTurns AIAssistant.user
      (AIAssistant.messages (AIAssistant.cells w)) = true /\
    length (AIAssistant.messages (AIAssistant.cells w))
    = (2 * length (AIAssistant.asked w))%nat /\
    AIAssistant.loading (AIAssistant.cells w) = false).
  { induction turns as [| [typed chatWithAI] turns IH]; intros w0 Ht Hl Hi.
    - simpl. auto.
    - cbn [AIAssistant.handleSends].
      destruct (handleSend_keeps_turns trim chatWithAI role typed w0 Ht Hl Hi)
        as (Ht' & Hl' & Hi').
      apply IH; assumption. }
  apply Hgen; reflexivity.
Qed.

(** Dragging the closed button: it follows the mouse by the distance the
    mouse has travelled since the grab, cut to the margins of the window,
    so it stays between 20 and the window size less 80 in a window of at
    least 100 pixels. *)
Theorem drag_follows_mouse_within_window
  (innerWidth innerHeight grabX grabY clientX clientY : Z) (st : AIAssistant.State) :
  let st' := AIAssistant.handleMouseMove innerWidth innerHeight clientX clientY
               (AIAssistant.handleMouseDown grabX grabY st) in
  let x0 := AIAssistant.x (AIAssistant.position st) in
  let y0 := AIAssistant.y (AIAssistant.position st) in
  AIAssistant.isOpen st = false ->
  100 <= innerWidth ->
  100 <= innerHeight ->
  AIAssistant.x (AIAssistant.position st')
  = Z.max 20 (Z.min (innerWidth - 80) (x0 + (clientX - grabX))) /\
  AIAssistant.y (AIAssistant.position st')
  = Z.max 20 (Z.min (innerHeight - 80) (y0 + (clientY - grabY))) /\
  20 <= AIAssistant.x (AIAssistant.position st') <= innerWidth - 80 /\
  20 <= AIAssistant.y (AIAssistant.position st') <= innerHeight - 80.
Proof.
  intros st' x0 y0 Hclosed Hw Hh.
  unfold st', AIAssistant.handleMouseMove, AIAssistant.handleMouseDown.
  rewrite Hclosed.
  cbn [AIAssistant.isDragging AIAssistant.setDragOffset AIAssistant.setIsDragging
       AIAssistant.dragOffset AIAssistant.position AIAssistant.setPosition
       AIAssistant.x AIAssistant.y].
  fold x0 y0. repeat split; lia.
Qed.


(** ** The call log over many searches *)





(** ** The further statements at concrete inputs *)

Lemma link_without_url_fails_search_witness :
  allResults (snd (asciiSearch [".xyz"] ["facebook.com"] STUDENT sampleAddHistory
                     (replyValid (Some brokenLinks)) None (sampleWorld "algebra")))
  = [] /\
  error (snd (asciiSearch [".xyz"] ["facebook.com"] STUDENT sampleAddHistory
                (replyValid (Some brokenLinks)) None (sampleWorld "algebra")))
  = JString "Search failed. Please try again later." /\
  history (snd (asciiSearch [".xyz"] ["facebook.com"] STUDENT sampleAddHistory
                  (replyValid (Some brokenLinks)) None (sampleWorld "algebra")))
  = sampleAddHistory "algebra" (history (sampleWorld "algebra")) /\
  loading (snd (asciiSearch [".xyz"] ["facebook.com"] STUDENT sampleAddHistory
                  (replyValid (Some brokenLinks)) None (sampleWorld "algebra")))
  = false.
Proof.
  apply (link_without_url_fails_search JsString.toLowerCase JsString.trim
           [".xyz"] ["facebook.com"] STUDENT
           sampleAddHistory (replyValid (Some brokenLinks)) None
           (sampleWorld "algebra")
           (mkValidationResponse (JBool true) (JString "Relevant.") (Some brokenLinks))
           brokenLinks
           (mkRawLink (Some "No address") None (Some "A snippet") None)).
  - discriminate.
  - reflexivity.
  - reflexivity.
  - reflexivity.
  - simpl. auto.
  - reflexivity.
Defined.

Lemma oracle_failure_outcome_witness :
  error (snd (asciiSearch [".xyz"] ["facebook.com"] TEACHER sampleAddHistory
                replyFails (Some "algebra") (sampleWorld "")))
  = JString "Search failed. Please try again later." /\
  allResults (snd (asciiSearch [".xyz"] ["facebook.com"] TEACHER sampleAddHistory
                     replyFails (Some "algebra") (sampleWorld ""))) = [] /\
  history (snd (asciiSearch [".xyz"] ["facebook.com"] TEACHER sampleAddHistory
                  replyFails (Some "algebra") (sampleWorld "")))
  = history (sampleWorld "") /\
  trace (snd (asciiSearch [".xyz"] ["facebook.com"] TEACHER sampleAddHistory
                replyFails (Some "algebra") (sampleWorld "")))
  = (trace (sampleWorld "") ++ [OracleCall "algebra" TEACHER])%list /\
  loading (snd (asciiSearch [".xyz"] ["facebook.com"] TEACHER sampleAddHistory
                  replyFails (Some "algebra") (sampleWorld ""))) = false.
Proof.
  apply (oracle_failure_outcome JsString.toLowerCase JsString.trim
           [".xyz"] ["facebook.com"] TEACHER sampleAddHistory
           replyFails (Some "algebra") (sampleWorld "")).
  - discriminate.
  - reflexivity.
Defined.

Example history_filter_run :
  filteredHistory JsString.toLowerCase
    ["Algebra II"; "calculus"; "linear ALGEBRA"; "Algebra II"] "algeb"
  = ["Algebra II"; "linear ALGEBRA"; "Algebra II"].
Proof. reflexivity. Qed.

Lemma load_more_pages_through_results_witness :
  visibleResults
    (loadMoreTimes 1
       (mkWorld "" false (repeat sampleResult 8) 6 JNull false [] []))
  = firstn (Z.to_nat (6 + 6 * Z.of_nat 1)) (repeat sampleResult 8) /\
  (loadMoreShown
     (loadMoreTimes 1
        (mkWorld "" false (repeat sampleResult 8) 6 JNull false [] [])) = false <->
   visibleResults
     (loadMoreTimes 1
        (mkWorld "" false (repeat sampleResult 8) 6 JNull false [] []))
   = repeat sampleResult 8).
Proof.
  apply (load_more_pages_through_results 1
           (mkWorld "" false (repeat sampleResult 8) 6 JNull false [] [])).
  simpl. lia.
Defined.

Example paging_run :
  length (visibleResults (mkWorld "" false (repeat sampleResult 8) 6 JNull false [] []))
  = 6%nat /\
  loadMoreShown (mkWorld "" false (repeat sampleResult 8) 6 JNull false [] []) = true /\
  length (visibleResults
            (loadMoreTimes 1
               (mkWorld "" false (repeat sampleResult 8) 6 JNull false [] [])))
  = 8%nat.
Proof. repeat split. Qed.

Lemma formatTime_under_an_hour_witness :
  formatTime 1505 =
  String (digit (1505 / 60 / 10)) (String (digit (1505 / 60 mod 10))
    (String ":" (String (digit (1505 mod 60 / 10))
       (String (digit (1505 mod 60 mod 10)) "")))).
Proof.
  apply (formatTime_under_an_hour 1505). lia.
Defined.

Lemma formatTime_tells_times_apart_witness :
  0 <= 59 /\ 0 <= 60 /\ formatTime 59 <> formatTime 60.
Proof.
  split; [lia |]. split; [lia |].
  apply (formatTime_tells_times_apart 59 60); lia.
Defined.

Lemma registered_addresses_stay_distinct_witness :
  NoDup (ProfileSetup.addresses
           (ProfileSetup.savedUsers
              (ProfileSetup.storage
                 (ProfileSetup.run (signUpEvents ++ [ProfileSetup.Submit])
                    (ProfileSetup.mount (Some [savedAda])))))).
Proof.
  apply (registered_addresses_stay_distinct (Some [savedAda])
           (signUpEvents ++ [ProfileSetup.Submit])).
  simpl. constructor; [simpl; tauto | constructor].
Defined.

Lemma completed_profiles_have_a_role_witness :
  Forall (fun u => UserProfile.role u <> UNSET)
         (ProfileSetup.completed
            (ProfileSetup.run (signUpEvents ++ [ProfileSetup.Submit])
               (ProfileSetup.mount (Some [savedAda]))))
  /\
  Forall (fun u => UserProfile.role u <> UNSET)
         (ProfileSetup.savedUsers
            (ProfileSetup.storage
               (ProfileSetup.run (signUpEvents ++ [ProfileSetup.Submit])
                  (ProfileSetup.mount (Some [savedAda]))))).
Proof.
  apply (completed_profiles_have_a_role (Some [savedAda])
           (signUpEvents ++ [ProfileSetup.Submit])).
  simpl. constructor; [simpl; discriminate | constructor].
Defined.

Example sign_up_run :
  ProfileSetup.storage (ProfileSetup.handleSubmit signUpForm)
  = Some [savedAda; newGrace] /\
  ProfileSetup.completed (ProfileSetup.handleSubmit signUpForm) = [newGrace] /\
  ProfileSetup.error (ProfileSetup.cells (ProfileSetup.handleSubmit signUpForm)) = None.
Proof. repeat split. Qed.

Lemma signup_then_signin_witness :
  ProfileSetup.storage (ProfileSetup.handleSubmit signUpForm)
  = Some ([savedAda] ++ [newGrace])%list /\
  ProfileSetup.completed (ProfileSetup.handleSubmit signUpForm)
  = ([] ++ [newGrace])%list /\
  ProfileSetup.isKnownUser
    (ProfileSetup.cells
       (ProfileSetup.onEmailChange "GRACE@uni.edu"
          (ProfileSetup.mount
             (ProfileSetup.storage (ProfileSetup.handleSubmit signUpForm)))))
  = true /\
  ProfileSetup.role
    (ProfileSetup.cells
       (ProfileSetup.onEmailChange "GRACE@uni.edu"
          (ProfileSetup.mount
             (ProfileSetup.storage (ProfileSetup.handleSubmit signUpForm)))))
  = STUDENT /\
  ProfileSetup.completed
    (ProfileSetup.handleSubmit
       (ProfileSetup.onPasswordChange "hopper"
          (ProfileSetup.onEmailChange "GRACE@uni.edu"
             (ProfileSetup.mount
                (ProfileSetup.storage (ProfileSetup.handleSubmit signUpForm))))))
  = [newGrace] /\
  (forall wrong,
      wrong <> "hopper" ->
      ProfileSetup.completed
        (ProfileSetup.handleSubmit
           (ProfileSetup.onPasswordChange wrong
              (ProfileSetup.onEmailChange "GRACE@uni.edu"
                 (ProfileSetup.mount
                    (ProfileSetup.storage (ProfileSetup.handleSubmit signUpForm))))))
      = [] /\
      ProfileSetup.error
        (ProfileSetup.cells
           (ProfileSetup.handleSubmit
              (ProfileSetup.onPasswordChange wrong
                 (ProfileSetup.onEmailChange "GRACE@uni.edu"
                    (ProfileSetup.mount
                       (ProfileSetup.storage
                          (ProfileSetup.handleSubmit signUpForm)))))))
      = Some "Incorrect password for this email.").
Proof.
  apply (signup_then_signin signUpForm "GRACE@uni.edu").
  - simpl. discriminate.
  - reflexivity.
  - reflexivity.
  - simpl. discriminate.
  - simpl. discriminate.
  - simpl. discriminate.
  - reflexivity.
  - reflexivity.
Defined.

Lemma incomplete_form_changes_nothing_witness :
  ProfileSetup.completed (ProfileSetup.handleSubmit mistypedForm)
  = ProfileSetup.completed mistypedForm /\
  ProfileSetup.storage (ProfileSetup.handleSubmit mistypedForm)
  = ProfileSetup.storage mistypedForm /\
  ProfileSetup.error (ProfileSetup.cells (ProfileSetup.handleSubmit mistypedForm))
  <> None.
Proof.
  apply (incomplete_form_changes_nothing mistypedForm).
  right. split; [reflexivity |]. right. right. right. simpl. discriminate.
Defined.

Example mistyped_password_message :
  ProfileSetup.error (ProfileSetup.cells (ProfileSetup.handleSubmit mistypedForm))
  = Some "Passwords do not match.".
Proof. reflexivity. Qed.

Example chat_run :
  AIAssistant.messages
    (AIAssistant.cells
       (AIAssistant.handleSends JsString.trim STUDENT
          [("  What is a group?  ", chatAnswers "A set with an operation.");
           ("   ", chatAnswers "Never asked.");
           ("And a ring?", chatFails)]
          (AIAssistant.mkWidget (AIAssistant.initialState 1280 720) [])))
  = [AIAssistant.mkChatMessage AIAssistant.user "What is a group?";
     AIAssistant.mkChatMessage AIAssistant.model "A set with an operation.";
     AIAssistant.mkChatMessage AIAssistant.user "And a ring?";
     AIAssistant.mkChatMessage AIAssistant.model
       "I'm sorry, I encountered an error. Please try again."].
Proof. reflexivity. Qed.

Lemma drag_follows_mouse_within_window_witness :
  AIAssistant.x
    (AIAssistant.position
       (AIAssistant.handleMouseMove 1280 720 40 2000
          (AIAssistant.handleMouseDown 1200 640 (AIAssistant.initialState 1280 720))))
  = Z.max 20 (Z.min (1280 - 80) (1180 + (40 - 1200))) /\
  AIAssistant.y
    (AIAssistant.position
       (AIAssistant.handleMouseMove 1280 720 40 2000
          (AIAssistant.handleMouseDown 1200 640 (AIAssistant.initialState 1280 720))))
  = Z.max 20 (Z.min (720 - 80) (620 + (2000 - 640))) /\
  20 <= AIAssistant.x
          (AIAssistant.position
             (AIAssistant.handleMouseMove 1280 720 40 2000
                (AIAssistant.handleMouseDown 1200 640
                   (AIAssistant.initialState 1280 720)))) <= 1280 - 80 /\
  20 <= AIAssistant.y
          (AIAssistant.position
             (AIAssistant.handleMouseMove 1280 720 40 2000
                (AIAssistant.handleMouseDown 1200 640
                   (AIAssistant.initialState 1280 720)))) <= 720 - 80.
Proof.
  apply (drag_follows_mouse_within_window 1280 720 1200 640 40 2000
           (AIAssistant.initialState 1280 720)).
  - reflexivity.
  - lia.
  - lia.
Defined.


Lemma typed_duration_is_clamped_witness :
  3600 * parsed_or_zero (Some (-2)) + 60 * 59 <= 9007199254740992 /\
  totalSecondsOf
    (onMinutesChange (Some 75)
       (onHoursChange (Some (-2)) (mkTimerState 0 0 25 0))) = 3540 /\
  startTimer
    (onMinutesChange (Some 75)
       (onHoursChange (Some (-2)) (mkTimerState 0 0 25 0)))
  = (mkTimerState 3540 0 59 3540, [OnStartLock]).
Proof.
  assert (Hexact : 3600 * parsed_or_zero (Some (-2)) + 60 * 59
                   <= 9007199254740992) by (simpl; lia).
  split; [exact Hexact |].
  destruct (typed_duration_is_clamped (Some (-2)) (Some 75)
              (mkTimerState 0 0 25 0) Hexact)
    as (Htotal & _ & _ & _ & Hstart).
  split; [exact Htotal |]. apply Hstart. reflexivity.
Defined.

Example typed_nothing_starts_nothing :
  startTimer (onMinutesChange None (onHoursChange None (mkTimerState 0 0 25 0)))
  = (mkTimerState 0 0 0 0, []).
Proof. reflexivity. Qed.

Example same_address_typed_again :
  ProfileSetup.onEmailChange "GRACE@uni.edu"
    (ProfileSetup.onRoleClick TEACHER
       (ProfileSetup.onEmailChange "GRACE@uni.edu"
          (ProfileSetup.mount (Some [newGrace]))))
  = ProfileSetup.onRoleClick TEACHER
      (ProfileSetup.onEmailChange "GRACE@uni.edu"
         (ProfileSetup.mount (Some [newGrace]))).
Proof. reflexivity. Qed.


Example ledger_write_without_request_is_ill_formed :
  ledgerFollowsOracle STUDENT [AddHistory "algebra"] = false /\
  ledgerFollowsOracle STUDENT
    [OracleCall "algebra" STUDENT; AddHistory "algebra "] = false /\
  ledgerFollowsOracle STUDENT
    [OracleCall "algebra" TEACHER; AddHistory "algebra"] = false /\
  ledgerFollowsOracle STUDENT
    [OracleCall "algebra" STUDENT; AddHistory "algebra"; AddHistory "algebra"]
  = false.
Proof. repeat split. Qed.
